(** * Lucky-Bet: session-authenticated request pipeline and wager settlement

    A shallow embedding of the server's [UserModel], [AuthService],
    [GameService] and [Controller] classes and of the client's blackjack
    page, followed by the properties of the wager engine and of the
    request handlers.

    JavaScript numbers are IEEE-754 binary64 values: they are modelled by
    Rocq's primitive [float], whose operations compute exactly what the
    engine computes.  Asynchronous methods that may throw are modelled in
    a state-and-exception monad [Task] over a [World] holding the [users]
    table, the session, the random source and a journal of the effects
    performed so far.

    The classes are embedded twice.  The first embedding reads a balance
    as the TypeScript code declares it, a number, and keeps a journal of
    the statements issued: it carries the properties of validation, of
    the order of effects and of the credentials, which do not depend on
    how a balance is stored.  The second embedding, module [Live], follows
    the schema of the repository, [balance DECIMAL(10,2)]: the driver
    hands the balance over as decimal text, the column rounds what it is
    given and refuses what it cannot hold, and the fields of a request
    body hold any JSON value.  It carries the properties of settlement,
    of the routes and of the balance that is persisted. *)

From Stdlib Require Import ZArith List String Ascii Bool Floats Lia.
From Stdlib Require Import DecimalString Permutation.
Import ListNotations.

Set Warnings "-inexact-float".

Local Open Scope string_scope.
Local Open Scope Z_scope.

(** ** JavaScript values *)

Module Js.

(** The values a parsed JSON body can hold at its top level. *)
Inductive JsValue : Type :=
| JsUndefined
| JsNull
| JsBoolean (b : bool)
| JsNumber (x : float)
| JsString (s : string).

(** [typeof v] *)
Definition typeof (v : JsValue) : string :=
  match v with
  | JsUndefined => "undefined"
  | JsNull => "object"
  | JsBoolean _ => "boolean"
  | JsNumber _ => "number"
  | JsString _ => "string"
  end.

(** [isNaN(x)] on a number. *)
Definition isNaN (x : float) : bool := PrimFloat.is_nan x.

(** ToBoolean: [undefined], [null], [false], [0], [-0], [NaN] and the
    empty string are falsy. *)
Definition truthy (v : JsValue) : bool :=
  match v with
  | JsUndefined | JsNull => false
  | JsBoolean b => b
  | JsNumber x => negb (PrimFloat.is_zero x || isNaN x)
  | JsString s => negb (s =? "")%string
  end.

(** Relational operators on numbers; every comparison with NaN is false. *)
Definition lt (x y : float) : bool := PrimFloat.ltb x y.
Definition le (x y : float) : bool := PrimFloat.leb x y.
Definition gt (x y : float) : bool := PrimFloat.ltb y x.

(** [Math.floor] of a number, as an integer; [None] for NaN and the
    infinities, which [Math.floor] returns unchanged. *)
Definition floor (x : float) : option Z :=
  match Prim2SF x with
  | S754_zero _ => Some 0
  | S754_finite s m e =>
      let v := if s then Z.neg m else Z.pos m in
      Some (if 0 <=? e then Z.shiftl v e else Z.shiftr v (- e))
  | S754_infinity _ | S754_nan => None
  end.

(** [Math.floor(x)] as a number: zeros, infinities, NaN and numbers with
    no fractional bits are returned unchanged. *)
Definition Math_floor (x : float) : float :=
  match Prim2SF x with
  | S754_finite s m e =>
      if 0 <=? e then x
      else
        let v := if s then Z.neg m else Z.pos m in
        SF2Prim (binary_normalize prec emax (Z.shiftr v (- e)) 0 false)
  | _ => x
  end.

(** [response.ok] *)
Definition statusOk (code : Z) : bool := (200 <=? code) && (code <=? 299).

(** What [JSON.parse(JSON.stringify(x))] yields for a number: NaN and the
    infinities are written as [null], and [-0] as [0]. *)
Definition jsonNumber (x : float) : JsValue :=
  if PrimFloat.is_nan x || PrimFloat.is_infinity x then JsNull
  else if PrimFloat.is_zero x then JsNumber 0%float
  else JsNumber x.

(** [n.toString()] for an integral number. *)
Definition toString (n : Z) : string := NilZero.string_of_int (Z.to_int n).

(** [String(x)] for a number that is not finite. *)
Definition nonFiniteToString (x : float) : string :=
  if isNaN x then "NaN" else if lt x 0 then "-Infinity" else "Infinity".

(** [s.toLowerCase()], on the ASCII letters. *)
Definition lowerChar (c : ascii) : ascii :=
  let n := nat_of_ascii c in
  if (Nat.leb 65 n && Nat.leb n 90)%bool then ascii_of_nat (n + 32) else c.

Fixpoint toLowerCase (s : string) : string :=
  match s with
  | EmptyString => EmptyString
  | String c r => String (lowerChar c) (toLowerCase r)
  end.

Section Engine.

(** The engine's StringToNumber conversion, left abstract. *)
Variable StringToNumber : string -> float.

(** ToNumber, the coercion applied by [>], [<=], [*] and [-]. *)
Definition ToNumber (v : JsValue) : float :=
  match v with
  | JsUndefined => PrimFloat.nan
  | JsNull => 0%float
  | JsBoolean b => if b then 1%float else 0%float
  | JsNumber x => x
  | JsString s => StringToNumber s
  end.

End Engine.

(** *** Numbers and their decimal text

    [Number::toString] writes the shortest decimal that reads back as the
    number, [StringToNumber] reads a numeric literal to the nearest number.
    Both are computed on exact integers. *)

(** The Number nearest to the rational p/q (ties to even), p >= 0 and
    q > 0.  The quotient is taken with at least 56 bits and a sticky bit,
    then rounded once by binary_normalize. *)
Definition roundToNumber (negative : bool) (p q : Z) : float :=
  if p =? 0 then (if negative then neg_zero else zero)
  else
    let k := Z.max 0 (56 + Z.log2 q - Z.log2 p) in
    let n := p * 2 ^ k in
    let m := 2 * (n / q) + (if n mod q =? 0 then 0 else 1) in
    SF2Prim (binary_normalize prec emax (if negative then - m else m) (- k - 1) false).

(** 10^l <= m * 2^e, exactly. *)
Definition tenLe (l m e : Z) : bool :=
  10 ^ Z.max 0 l * 2 ^ Z.max 0 (- e) <=? m * 2 ^ Z.max 0 e * 10 ^ Z.max 0 (- l).

(** The n with 10^(n-1) <= m * 2^e < 10^n. *)
Definition magnitude (m e : Z) : Z :=
  let g := (Z.log2 m + e) * 30103 / 100000 in
  if tenLe (g + 1) m e then g + 2 else if tenLe g m e then g + 1 else g.

(** The k-digit decimals s * 10^(n-k) next to m * 2^e that read back as x;
    of two, the nearer one, and the even one when they are as near. *)
Definition digitsOfLength (x : float) (m e n k : Z) : option (Z * Z) :=
  let V := m * 2 ^ Z.max 0 e * 10 ^ Z.max 0 (k - n) in
  let U := 10 ^ Z.max 0 (n - k) * 2 ^ Z.max 0 (- e) in
  let lo := V / U in
  let r := V mod U in
  let reads s := PrimFloat.eqb (roundToNumber false (s * 10 ^ Z.max 0 (n - k)) (10 ^ Z.max 0 (k - n))) x in
  let carry s := if s =? 10 ^ k then (10 ^ (k - 1), n + 1) else (s, n) in
  if r =? 0 then Some (lo, n)
  else
    match reads lo, reads (lo + 1) with
    | true, true =>
        if 2 * r <? U then Some (lo, n)
        else if U <? 2 * r then Some (carry (lo + 1))
        else Some (if Z.even lo then (lo, n) else carry (lo + 1))
    | true, false => Some (lo, n)
    | false, true => Some (carry (lo + 1))
    | false, false => None
    end.

Fixpoint shortestDigits (fuel : nat) (x : float) (m e n k : Z) : Z * Z * Z :=
  match fuel with
  | O => (m * 2 ^ Z.max 0 e * 10 ^ Z.max 0 (k - n) / (10 ^ Z.max 0 (n - k) * 2 ^ Z.max 0 (- e)), n, k)
  | S fuel' =>
      match digitsOfLength x m e n k with
      | Some (s, n') => (s, n', k)
      | None => shortestDigits fuel' x m e n (k + 1)
      end
  end.

Fixpoint zeros (n : nat) : string :=
  match n with O => "" | S n' => String "0" (zeros n') end.

Definition substring_from (n : nat) (s : string) : string :=
  substring n (String.length s - n) s.

(** Number::toString for a positive finite number m * 2^e. *)
Definition positiveToString (x : float) (m e : Z) : string :=
  let '(s, n, k) := shortestDigits 17 x m e (magnitude m e) 1 in
  let digits := toString s in
  if (-5 <=? n) && (n <=? 21) then
    if k <=? n then digits ++ zeros (Z.to_nat (n - k))
    else if 0 <? n then
      substring 0 (Z.to_nat n) digits ++ "." ++ substring_from (Z.to_nat n) digits
    else "0." ++ zeros (Z.to_nat (- n)) ++ digits
  else
    let exponent := (if n <? 0 then "-" else "+") ++ toString (Z.abs (n - 1)) in
    if k =? 1 then digits ++ "e" ++ exponent
    else substring 0 1 digits ++ "." ++ substring_from 1 digits ++ "e" ++ exponent.

(** Number::toString, radix 10. *)
Definition numberToString (x : float) : string :=
  match Prim2SF x with
  | S754_nan => "NaN"
  | S754_zero _ => "0"
  | S754_infinity false => "Infinity"
  | S754_infinity true => "-Infinity"
  | S754_finite false m e => positiveToString x (Zpos m) e
  | S754_finite true m e => "-" ++ positiveToString (- x)%float (Zpos m) e
  end.

Definition code (c : ascii) : Z := Z.of_nat (nat_of_ascii c).

Definition isStrWhiteSpace (c : ascii) : bool :=
  let n := code c in ((9 <=? n) && (n <=? 13)) || (n =? 32) || (n =? 160).

Fixpoint dropWhile (f : ascii -> bool) (s : list ascii) : list ascii :=
  match s with
  | c :: rest => if f c then dropWhile f rest else s
  | [] => []
  end.

Definition trim (f : ascii -> bool) (s : list ascii) : list ascii :=
  rev (dropWhile f (rev (dropWhile f s))).

Definition digitOf (radix : Z) (c : ascii) : option Z :=
  let n := code c in
  let v := if (48 <=? n) && (n <=? 57) then n - 48
           else if (97 <=? n) && (n <=? 102) then n - 87
           else if (65 <=? n) && (n <=? 70) then n - 55
           else 16 in
  if v <? radix then Some v else None.

(** The longest run of digits at the head: its value, its length, the rest. *)
Fixpoint readRun (radix : Z) (s : list ascii) (acc : Z) (len : Z) : Z * Z * list ascii :=
  match s with
  | c :: rest =>
      match digitOf radix c with
      | Some d => readRun radix rest (acc * radix + d) (len + 1)
      | None => (acc, len, s)
      end
  | [] => (acc, len, [])
  end.

Definition readSign (s : list ascii) : bool * list ascii :=
  match s with
  | "-"%char :: rest => (true, rest)
  | "+"%char :: rest => (false, rest)
  | _ => (false, s)
  end.

Definition isE (c : ascii) : bool := (c =? "e")%char || (c =? "E")%char.

(** digits [. digits] [e [sign] digits], with a digit before or after the
    point: the decimal d * 10^x it writes, and what follows it. *)
Definition readDecimal (s : list ascii) : option (Z * Z * list ascii) :=
  let '(whole, wholeLen, s1) := readRun 10 s 0 0 in
  let '(d, fractionLen, s2) :=
    match s1 with
    | "."%char :: s1' => readRun 10 s1' whole 0
    | _ => (whole, 0, s1)
    end in
  if wholeLen + fractionLen =? 0 then None
  else
    match s2 with
    | c :: s3 =>
        if isE c then
          let '(negative, s4) := readSign s3 in
          let '(x, xLen, s5) := readRun 10 s4 0 0 in
          if xLen =? 0 then Some (d, - fractionLen, s2)
          else Some (d, (if negative then - x else x) - fractionLen, s5)
        else Some (d, - fractionLen, s2)
    | [] => Some (d, - fractionLen, [])
    end.

Definition decimalToNumber (negative : bool) (d x : Z) : float :=
  roundToNumber negative (d * 10 ^ Z.max 0 x) (10 ^ Z.max 0 (- x)).

Definition readRadix (radix : Z) (s : list ascii) : float :=
  let '(v, len, rest) := readRun radix s 0 0 in
  match rest with
  | [] => if len =? 0 then nan else roundToNumber false v 1
  | _ => nan
  end.

(** StringToNumber. *)
Definition stringToNumber (s : string) : float :=
  match trim isStrWhiteSpace (list_ascii_of_string s) with
  | [] => zero
  | "0"%char :: "x"%char :: rest | "0"%char :: "X"%char :: rest => readRadix 16 rest
  | "0"%char :: "o"%char :: rest | "0"%char :: "O"%char :: rest => readRadix 8 rest
  | "0"%char :: "b"%char :: rest | "0"%char :: "B"%char :: rest => readRadix 2 rest
  | t =>
      let '(negative, u) := readSign t in
      if (string_of_list_ascii u =? "Infinity")%string
      then (if negative then neg_infinity else infinity)
      else
        match readDecimal u with
        | Some (d, x, []) => decimalToNumber negative d x
        | _ => nan
        end
  end.

(** ToNumber with the engine's own StringToNumber. *)
Definition toNumber (v : JsValue) : float := ToNumber stringToNumber v.

(** [v === s] for a string [s]: no coercion. *)
Definition strictEqString (v : JsValue) (s : string) : bool :=
  match v with
  | JsString t => (t =? s)%string
  | _ => false
  end.

(** [a > b]: two strings are compared by their code units, any other pair
    by ToNumber. *)
Definition gtValue (a b : JsValue) : bool :=
  match a, b with
  | JsString s, JsString t => (t <? s)%string
  | _, _ => gt (toNumber a) (toNumber b)
  end.

End Js.

Export Js(JsValue(..)).

(** ** The persistent store, the session and the random source *)

(** A row of the [users] table. *)
Record User : Type := mkUser {
  id : Z;
  username : string;
  email : string;
  password : string;
  balance : float
}.

(** The value stored under the session key ["user"]: [{ id }]. *)
Record SessionUser : Type := mkSessionUser { sessionUserId : Z }.

(** Effects a handler can perform, in the order of the journal. *)
Inductive Effect : Type :=
| SqlSelectById (userId : Z)
| SqlSelectByEmail (mail : string)
| SqlUpdateBalance (userId : Z) (newBalance : float)
| SqlUpdatePassword (userId : Z) (newPassword : string)
| MathRandom
| SessionSet (value : option SessionUser).

Record World : Type := mkWorld {
  users : list User;
  sessionUser : option SessionUser;
  random : nat -> float;
  draws : nat;
  journal : list Effect
}.

Definition record (e : Effect) (w : World) : World :=
  mkWorld (users w) (sessionUser w) (random w) (draws w) (journal w ++ [e]).

Definition withUsers (us : list User) (w : World) : World :=
  mkWorld us (sessionUser w) (random w) (draws w) (journal w).

Definition withSessionUser (su : option SessionUser) (w : World) : World :=
  mkWorld (users w) su (random w) (draws w) (journal w).

Definition nextDraw (w : World) : World :=
  mkWorld (users w) (sessionUser w) (random w) (S (draws w)) (journal w).

(** ** Asynchronous computations that may throw *)

Inductive Outcome (A : Type) : Type :=
| Returned (a : A)
| Thrown (message : string).

Arguments Returned {A} a.
Arguments Thrown {A} message.

(** A computation runs in a world and leaves a world behind, also when it
    throws: effects performed before a [throw] are not undone. *)
Definition Task (A : Type) : Type := World -> Outcome A * World.

Definition ret {A} (a : A) : Task A := fun w => (Returned a, w).

Definition throw {A} (message : string) : Task A := fun w => (Thrown message, w).

Definition bind {A B} (c : Task A) (k : A -> Task B) : Task B :=
  fun w =>
    match c w with
    | (Returned a, w') => k a w'
    | (Thrown m, w') => (Thrown m, w')
    end.

(** [try { c } catch (err) { h err.message }] *)
Definition tryCatch {A} (c : Task A) (h : string -> Task A) : Task A :=
  fun w =>
    match c w with
    | (Returned a, w') => (Returned a, w')
    | (Thrown m, w') => h m w'
    end.

Declare Scope task_scope.
Delimit Scope task_scope with task.
Notation "x <- c ;; k" := (bind c (fun x => k))
  (at level 61, c at next level, right associativity) : task_scope.
Notation "c ;; k" := (bind c (fun _ => k))
  (at level 61, right associativity) : task_scope.
Local Open Scope task_scope.

(** [Math.random()]: the next value of the random source.  The engine
    draws from [0, 1); the model lets the source return any number. *)
Definition Math_random : Task float :=
  fun w => (Returned (random w (draws w)), record MathRandom (nextDraw w)).

(** ** UserModel *)

(** The table keeps the values it is given: the column types and
    constraints of the schema are outside the model. *)

Module UserModel.

Definition setBalance (b : float) (u : User) : User :=
  mkUser (id u) (username u) (email u) (password u) b.

Definition setPassword (p : string) (u : User) : User :=
  mkUser (id u) (username u) (email u) p (balance u).

(** [SELECT * FROM users WHERE email = ...], then [users[0] || null]. *)
Definition findByEmail (mail : string) : Task (option User) :=
  fun w => (Returned (find (fun u => email u =? mail)%string (users w)),
            record (SqlSelectByEmail mail) w).

(** [SELECT ... FROM users WHERE id = ...], then [users[0] || null]. *)
Definition getById (userId : Z) : Task (option User) :=
  fun w => (Returned (find (fun u => id u =? userId) (users w)),
            record (SqlSelectById userId) w).

(** [UPDATE users SET balance = ... WHERE id = ...] *)
Definition updateBalance (userId : Z) (newBalance : float) : Task unit :=
  fun w =>
    (Returned tt,
     record (SqlUpdateBalance userId newBalance)
       (withUsers
          (map (fun u => if id u =? userId then setBalance newBalance u else u)
             (users w)) w)).

(** [UPDATE users SET password = ... WHERE id = ...] *)
Definition updatePassword (userId : Z) (newPassword : string) : Task unit :=
  fun w =>
    (Returned tt,
     record (SqlUpdatePassword userId newPassword)
       (withUsers
          (map (fun u => if id u =? userId then setPassword newPassword u else u)
             (users w)) w)).

End UserModel.

(** The balance the store holds for a user id, if that user exists. *)
Definition balanceOf (userId : Z) (w : World) : option float :=
  option_map balance (find (fun u => id u =? userId) (users w)).

(** The credential the store holds for a user id. *)
Definition passwordOf (userId : Z) (w : World) : option string :=
  option_map password (find (fun u => id u =? userId) (users w)).

(** ** GameService *)

Module GameService.

Record CoinFlipResult : Type := mkCoinFlipResult {
  outcome : string;
  cfWin : bool;
  cfPayout : float;
  cfNewBalance : float
}.

Record Pocket : Type := mkPocket { number : Z; color : string }.

Record RouletteResult : Type := mkRouletteResult {
  result : Z;
  resultColor : string;
  win : bool;
  payout : float;
  newBalance : float
}.

Definition ROULETTE_NUMBERS : list Pocket :=
  [ mkPocket 0 "green";
    mkPocket 32 "red";   mkPocket 15 "black";
    mkPocket 19 "red";   mkPocket 4 "black";
    mkPocket 21 "red";   mkPocket 2 "black";
    mkPocket 25 "red";   mkPocket 17 "black";
    mkPocket 34 "red";   mkPocket 6 "black";
    mkPocket 27 "red";   mkPocket 13 "black";
    mkPocket 36 "red";   mkPocket 11 "black";
    mkPocket 30 "red";   mkPocket 8 "black";
    mkPocket 23 "red";   mkPocket 10 "black";
    mkPocket 5 "red";    mkPocket 24 "black";
    mkPocket 16 "red";   mkPocket 33 "black";
    mkPocket 1 "red";    mkPocket 20 "black";
    mkPocket 14 "red";   mkPocket 31 "black";
    mkPocket 9 "red";    mkPocket 22 "black";
    mkPocket 18 "red";   mkPocket 29 "black";
    mkPocket 7 "red";    mkPocket 28 "black";
    mkPocket 12 "red";   mkPocket 35 "black";
    mkPocket 3 "red";    mkPocket 26 "black" ].

(** [ROULETTE_NUMBERS.find((x) => x.number === n)] *)
Definition getResultDetails (n : Z) : option Pocket :=
  find (fun x => number x =? n) ROULETTE_NUMBERS.

(** The [if ... else if ...] chain of [playRoulette]: the pair
    [(win, payoutMultiplier)] for a bet selector, the pocket found in the
    table and the number drawn. *)
Definition matchBet (betType : string) (pocket : Pocket) (resultNumber : Z)
  : bool * float :=
  if (betType =? Js.toString (number pocket))%string then (true, 35%float)
  else if (betType =? color pocket)%string then (true, 1%float)
  else if (betType =? "even")%string
          && negb (resultNumber =? 0) && (Z.rem resultNumber 2 =? 0)
       then (true, 1%float)
  else if (betType =? "odd")%string && (Z.rem resultNumber 2 =? 1)
       then (true, 1%float)
  else if (betType =? "1-12")%string
          && (1 <=? resultNumber) && (resultNumber <=? 12)
       then (true, 2%float)
  else if (betType =? "13-24")%string
          && (13 <=? resultNumber) && (resultNumber <=? 24)
       then (true, 2%float)
  else if (betType =? "25-36")%string
          && (25 <=? resultNumber) && (resultNumber <=? 36)
       then (true, 2%float)
  else (false, 0%float).

(** [playCoinFlip(userId, guess, amount)].  The test
    [typeof amount !== "number"] is the match on [amount]. *)
Definition playCoinFlip (userId : Z) (guess : string) (amount : JsValue)
  : Task CoinFlipResult :=
  match amount with
  | JsNumber amount =>
      if negb (Js.truthy (JsString guess)) || Js.le amount 0
      then throw "Invalid bet input"
      else
        user <- UserModel.getById userId ;;
        match user with
        | None => throw "User not found"
        | Some user =>
            if Js.gt amount (balance user)
            then throw "Insufficient funds"
            else
              r <- Math_random ;;
              let outcome := if Js.lt r 0.5 then "heads" else "tails" in
              let win := (guess =? outcome)%string in
              let payout := if win then (amount * 1.95)%float else 0%float in
              let newBalance := (balance user - amount + payout)%float in
              UserModel.updateBalance userId newBalance ;;
              ret (mkCoinFlipResult outcome win payout newBalance)
        end
  | _ => throw "Invalid bet input"
  end.

(** [Math.floor(Math.random() * 37)] *)
Definition getRandomResult : Task (float * option Z) :=
  r <- Math_random ;;
  ret ((r * 37)%float, Js.floor (r * 37)%float).

Definition invalidSpin (x : float) (n : option Z) : string :=
  "Invalid spin result: "
  ++ match n with Some k => Js.toString k | None => Js.nonFiniteToString x end
  ++ " not in ROULETTE_NUMBERS".

Section Engine.

Variable StringToNumber : string -> float.

Local Abbreviation ToNumber := (Js.ToNumber StringToNumber).

(** [playRoulette(userId, betType, amount)]: [amount] is only used through
    [>], [*] and [-], which coerce it with ToNumber. *)
Definition playRoulette (userId : Z) (betType : string) (amount : JsValue)
  : Task RouletteResult :=
  user <- UserModel.getById userId ;;
  match user with
  | None => throw "User not found"
  | Some user =>
      if Js.gt (ToNumber amount) (balance user)
      then throw "Insufficient funds"
      else
        drawn <- getRandomResult ;;
        let '(scaled, resultNumber) := drawn in
        match resultNumber with
        | None => throw (invalidSpin scaled None)
        | Some n =>
            match getResultDetails n with
            | None => throw (invalidSpin scaled (Some n))
            | Some pocket =>
                let '(win, payoutMultiplier) := matchBet betType pocket n in
                let payout :=
                  if win then (ToNumber amount * payoutMultiplier)%float
                  else 0%float in
                let newBalance :=
                  if win then (balance user + payout)%float
                  else (balance user - ToNumber amount)%float in
                UserModel.updateBalance userId newBalance ;;
                ret (mkRouletteResult (number pocket) (color pocket)
                       win payout newBalance)
            end
        end
  end.

End Engine.

End GameService.

(** ** AuthService *)

Module AuthService.

(** [login(email, password)] *)
Definition login (mail pass : string) : Task User :=
  user <- UserModel.findByEmail mail ;;
  match user with
  | None => throw "Invalid credentials"
  | Some user =>
      if negb (password user =? pass)%string
      then throw "Invalid credentials"
      else ret user
  end.

(** [getProfile(userId)] *)
Definition getProfile (userId : Z) : Task (option User) :=
  UserModel.getById userId.

(** [logout(session)]: [session.set("user", null)] *)
Definition logout : Task unit :=
  fun w => (Returned tt, record (SessionSet None) (withSessionUser None w)).

(** [updateBalance(userId, newBalance)] *)
Definition updateBalance (userId : Z) (newBalance : JsValue) : Task unit :=
  match newBalance with
  | JsNumber x =>
      if Js.isNaN x || Js.lt x 0
      then throw "Invalid balance value"
      else UserModel.updateBalance userId x
  | _ => throw "Invalid balance value"
  end.

(** [updatePassword(userId, currentPassword, newPassword)] *)
Definition updatePassword (userId : Z) (currentPassword newPassword : string)
  : Task unit :=
  user <- UserModel.getById userId ;;
  match user with
  | None => throw "User not found"
  | Some user =>
      if negb (password user =? currentPassword)%string
      then throw "Current password is incorrect"
      else if (Z.of_nat (String.length newPassword) <? 6)
      then throw "New password must be at least 6 characters"
      else UserModel.updatePassword userId newPassword
  end.

End AuthService.

(** ** Router and Response *)

Inductive Method : Type := GET | POST | PUT.

Inductive StatusCode : Type :=
| OK | Created | NoContent | BadRequest | Unauthorized | Forbidden
| NotFound | InternalServerError.

Definition statusNumber (s : StatusCode) : Z :=
  match s with
  | OK => 200 | Created => 201 | NoContent => 204
  | BadRequest => 400 | Unauthorized => 401 | Forbidden => 403
  | NotFound => 404 | InternalServerError => 500
  end.

Inductive Payload : Type :=
| RoulettePayload (r : GameService.RouletteResult)
| CoinFlipPayload (r : GameService.CoinFlipResult)
| BlackjackPayload (win : bool) (payout : float)
| ProfilePayload (u : User)
| BalancePayload (balance : JsValue).

(** The argument of [res.send]. *)
Record ResponseProps : Type := mkResponse {
  statusCode : StatusCode;
  message : string;
  payload : option Payload
}.

(** The fields of [req.body] the handlers below destructure.  The fields
    that the services compare or store as strings hold the string sent;
    the fields that the code tests with [typeof] or uses in arithmetic
    hold any value. *)
Record Body : Type := mkBody {
  guess : string;
  betType : string;
  amount : JsValue;
  bodyBalance : JsValue;
  bodyNewBalance : JsValue;
  currentPassword : string;
  newPassword : string
}.

Record Request : Type := mkRequest { body : Body }.

(** [req.session.get("user")]: [this.data["user"] ?? null] *)
Definition Session_get_user : Task (option SessionUser) :=
  fun w => (Returned (sessionUser w), w).

(** [!user?.id] followed by the use of [user.id]: the id of the session's
    user when there is one and it is truthy. *)
Definition authenticatedId (user : option SessionUser) : option Z :=
  match user with
  | None => None
  | Some u => if sessionUserId u =? 0 then None else Some (sessionUserId u)
  end.

(** [err.message || fallback] *)
Definition messageOr (m fallback : string) : string :=
  if (m =? "")%string then fallback else m.

(** ** Controller *)

Module Controller.

(** The handler methods bound in [registerRoutes]. *)
Inductive Handler : Type :=
| Register | Login | GetGames | Profile
| PlayRoulette | PlayBlackjack | PlayCoinFlip
| SetBalance | UpdateBalance
| GetLeaderboard | UpdateProfile | UpdatePassword | Logout.

(** [registerRoutes(router)] *)
Definition registerRoutes : list (Method * string * Handler) :=
  [ (POST, "/register", Register);
    (POST, "/login", Login);
    (GET, "/games", GetGames);
    (GET, "/profile", Profile);
    (POST, "/play/roulette", PlayRoulette);
    (POST, "/play/blackjack", PlayBlackjack);
    (POST, "/play/coinflip", PlayCoinFlip);
    (POST, "/user/balance", SetBalance);
    (POST, "/api/users/updateBalance", UpdateBalance);
    (GET, "/leaderboard", GetLeaderboard);
    (PUT, "/user/profile", UpdateProfile);
    (PUT, "/user/password", UpdatePassword);
    (POST, "/auth/logout", Logout) ].

Definition methodEqb (a b : Method) : bool :=
  match a, b with
  | GET, GET | POST, POST | PUT, PUT => true
  | _, _ => false
  end.

(** The handler the router finds for a method and an exact path. *)
Definition route (m : Method) (path : string) : option Handler :=
  option_map snd
    (find (fun r => methodEqb (fst (fst r)) m && (snd (fst r) =? path)%string)
       registerRoutes).

Definition playBlackjack (_req : Request) : Task ResponseProps :=
  ret (mkResponse OK "Blackjack result" (Some (BlackjackPayload false 0%float))).

Definition playCoinFlip (req : Request) : Task ResponseProps :=
  let guess := guess (body req) in
  let amount := amount (body req) in
  user <- Session_get_user ;;
  match authenticatedId user with
  | None => ret (mkResponse Unauthorized "Not logged in" None)
  | Some userId =>
      tryCatch
        (result <- GameService.playCoinFlip userId (Js.toLowerCase guess) amount ;;
         ret (mkResponse OK "Coin flip result" (Some (CoinFlipPayload result))))
        (fun err => ret (mkResponse BadRequest (messageOr err "Flip failed") None))
  end.

Definition profile (_req : Request) : Task ResponseProps :=
  sessionUser <- Session_get_user ;;
  match authenticatedId sessionUser with
  | None => ret (mkResponse Unauthorized "Not logged in" None)
  | Some userId =>
      tryCatch
        (user <- AuthService.getProfile userId ;;
         match user with
         | None => ret (mkResponse NotFound "User not found" None)
         | Some user =>
             ret (mkResponse OK "Profile fetched" (Some (ProfilePayload user)))
         end)
        (fun err =>
           ret (mkResponse InternalServerError
                  (messageOr err "Failed to fetch profile") None))
  end.

(** [POST /user/balance]; its [UPDATE users SET balance = ... WHERE id = ...]
    is the statement of [UserModel.updateBalance]. *)
Definition setBalance (req : Request) : Task ResponseProps :=
  userSession <- Session_get_user ;;
  let balance := bodyBalance (body req) in
  match authenticatedId userSession with
  | None => ret (mkResponse Unauthorized "Not logged in" None)
  | Some userId =>
      match balance with
      | JsNumber x =>
          if Js.lt x 0
          then ret (mkResponse BadRequest "Invalid balance" None)
          else
            UserModel.updateBalance userId x ;;
            ret (mkResponse OK "Balance updated" (Some (BalancePayload balance)))
      | _ => ret (mkResponse BadRequest "Invalid balance" None)
      end
  end.

(** [POST /api/users/updateBalance]; the guard is [!sessionUser]. *)
Definition updateBalance (req : Request) : Task ResponseProps :=
  sessionUser <- Session_get_user ;;
  match sessionUser with
  | None => ret (mkResponse Unauthorized "Not logged in" None)
  | Some su =>
      let newBalance := bodyNewBalance (body req) in
      tryCatch
        (AuthService.updateBalance (sessionUserId su) newBalance ;;
         ret (mkResponse OK "Balance updated" None))
        (fun err =>
           ret (mkResponse BadRequest (messageOr err "Balance update failed") None))
  end.

Definition updatePassword (req : Request) : Task ResponseProps :=
  sessionUser <- Session_get_user ;;
  match authenticatedId sessionUser with
  | None => ret (mkResponse Unauthorized "Not authenticated" None)
  | Some userId =>
      let currentPassword := currentPassword (body req) in
      let newPassword := newPassword (body req) in
      tryCatch
        (AuthService.updatePassword userId currentPassword newPassword ;;
         ret (mkResponse OK "Password updated successfully" None))
        (fun err =>
           ret (mkResponse BadRequest (messageOr err "Password update failed") None))
  end.

Definition logout (_req : Request) : Task ResponseProps :=
  tryCatch
    (AuthService.logout ;;
     ret (mkResponse OK "Logged out successfully" None))
    (fun err =>
       ret (mkResponse InternalServerError (messageOr err "Failed to logout") None)).

Section Engine.

Variable StringToNumber : string -> float.

Definition playRoulette (req : Request) : Task ResponseProps :=
  let betType := betType (body req) in
  let amount := amount (body req) in
  user <- Session_get_user ;;
  match authenticatedId user with
  | None => ret (mkResponse Unauthorized "Not logged in" None)
  | Some userId =>
      tryCatch
        (result <- GameService.playRoulette StringToNumber userId betType amount ;;
         ret (mkResponse OK "Roulette result" (Some (RoulettePayload result))))
        (fun err => ret (mkResponse BadRequest (messageOr err "Spin failed") None))
  end.

(** The handlers of the wager engine and of the credential service, by
    name; the other routes are outside this development. *)
Definition handle (h : Handler) : option (Request -> Task ResponseProps) :=
  match h with
  | Profile => Some profile
  | PlayRoulette => Some playRoulette
  | PlayBlackjack => Some playBlackjack
  | PlayCoinFlip => Some playCoinFlip
  | SetBalance => Some setBalance
  | UpdateBalance => Some updateBalance
  | UpdatePassword => Some updatePassword
  | Logout => Some logout
  | Register | Login | GetGames | GetLeaderboard | UpdateProfile => None
  end.

(** What the server does with a request for a method and a path. *)
Definition dispatch (m : Method) (path : string)
  : option (Request -> Task ResponseProps) :=
  match route m path with
  | Some h => handle h
  | None => None
  end.

End Engine.

End Controller.

(** ** The blackjack page of the client *)

Module BlackjackPage.

Definition BLACKJACK : Z := 21.
Definition DEALER_STAND : Z := 17.

(** A card as the deck service returns it. *)
Record Card : Type := mkCard { value : string; suit : string }.

(** Hand totals are integral numbers or NaN, written [None]. *)
Definition Total : Type := option Z.

Definition plus (t : Total) (n : Total) : Total :=
  match t, n with
  | Some a, Some b => Some (a + b)
  | _, _ => None
  end.

Definition gtTotal (a b : Total) : bool :=
  match a, b with
  | Some x, Some y => y <? x
  | _, _ => false
  end.

Definition ltTotal (a b : Total) : bool := gtTotal b a.

Definition eqTotal (a b : Total) : bool :=
  match a, b with
  | Some x, Some y => x =? y
  | _, _ => false
  end.

Definition isWhite (c : ascii) : bool :=
  let n := nat_of_ascii c in
  (Nat.leb 9 n && Nat.leb n 13)%bool || Nat.eqb n 32.

Definition isDigit (c : ascii) : bool :=
  let n := nat_of_ascii c in (Nat.leb 48 n && Nat.leb n 57)%bool.

Definition digitValue (c : ascii) : Z := Z.of_nat (nat_of_ascii c) - 48.

Fixpoint skipWhite (s : string) : string :=
  match s with
  | String c r => if isWhite c then skipWhite r else s
  | EmptyString => s
  end.

(** The longest prefix of decimal digits, read in base ten. *)
Fixpoint readDigits (s : string) (acc : Total) : Total :=
  match s with
  | String c r =>
      if isDigit c
      then readDigits r
             (Some (10 * match acc with Some a => a | None => 0 end + digitValue c))
      else acc
  | EmptyString => acc
  end.

(** [parseInt(v, 10)] *)
Definition parseInt (v : string) : Total :=
  match skipWhite v with
  | String "-" r => option_map Z.opp (readDigits r None)
  | String "+" r => readDigits r None
  | s => readDigits s None
  end.

(** The body of the [forEach] in [getHandValue], on the pair [(total, aces)]. *)
Definition addCard (acc : Total * nat) (c : Card) : Total * nat :=
  let '(total, aces) := acc in
  let v := value c in
  if existsb (String.eqb v) ["KING"; "QUEEN"; "JACK"] then (plus total (Some 10), aces)
  else if (v =? "ACE")%string then (plus total (Some 11), S aces)
  else (plus total (parseInt v), aces).

(** [while (total > BLACKJACK && aces > 0) { total -= 10; aces--; }] *)
Fixpoint demote (total : Total) (aces : nat) : Total :=
  match aces with
  | O => total
  | S aces' =>
      if gtTotal total (Some BLACKJACK)
      then demote (plus total (Some (-10))) aces'
      else total
  end.

Definition getHandValue (cards : list Card) : Total :=
  let '(total, aces) := fold_left addCard cards (Some 0, O) in
  demote total aces.

(** The state of the page that [settle] reads, and the balance shown. *)
Record Page : Type := mkPage {
  userBalance : float;
  playerHands : list (list Card);
  bets : list float;
  playerBlackjack : bool;
  gameOver : bool
}.

Definition showBalance (b : float) (p : Page) : Page :=
  mkPage b (playerHands p) (bets p) (playerBlackjack p) (gameOver p).

Definition setGameOver (g : bool) (p : Page) : Page :=
  mkPage (userBalance p) (playerHands p) (bets p) (playerBlackjack p) g.

(** The body of [playerHands.forEach((ph, i) => ...)] in [settle]: the new
    value of [totalWinnings]; [bets[i]] outside the array is [undefined],
    which the additions and products below turn into NaN. *)
Definition settleHand (p : Page) (dv : Total) (i : nat) (ph : list Card)
  (totalWinnings : float) : float :=
  let pv := getHandValue ph in
  let b := nth i (bets p) PrimFloat.nan in
  if playerBlackjack p && Nat.eqb i 0 && Nat.eqb (List.length ph) 2
     && eqTotal pv (Some BLACKJACK)
  then totalWinnings
  else if eqTotal pv (Some BLACKJACK) && Nat.eqb (List.length ph) 2 then
    if Nat.eqb (List.length (playerHands p)) 1
    then (totalWinnings + (b + Js.Math_floor (b * 1.5)))%float
    else (totalWinnings + b * 2)%float
  else if gtTotal pv (Some BLACKJACK) then totalWinnings
  else if gtTotal dv (Some BLACKJACK) || gtTotal pv dv
       then (totalWinnings + (b + b))%float
  else if eqTotal pv dv then (totalWinnings + b)%float
  else totalWinnings.

Fixpoint settleHands (p : Page) (dv : Total) (i : nat) (hands : list (list Card))
  (totalWinnings : float) : float :=
  match hands with
  | [] => totalWinnings
  | ph :: rest => settleHands p dv (S i) rest (settleHand p dv i ph totalWinnings)
  end.

(** [playerHands.every((hand) => getHandValue(hand) > BLACKJACK)] *)
Definition allBusted (hands : list (list Card)) : bool :=
  forallb (fun hand => gtTotal (getHandValue hand) (Some BLACKJACK)) hands.

(** The loop of [dealerPlay]:
    [while (getHandValue(dh) < DEALER_STAND) { draw one card; dh.push(card) }].
    [supply] holds the cards the deck service deals, in order; the loop
    also ends, by [break], at the first draw the service fails, which is
    the end of the supply. *)
Fixpoint dealerDraws (dh supply : list Card) : list Card :=
  match supply with
  | [] => dh
  | c :: rest =>
      if ltTotal (getHandValue dh) (Some DEALER_STAND)
      then dealerDraws (dh ++ [c]) rest
      else dh
  end.

(** The hand [dealerPlay] passes to [settle]: the dealer does not draw
    when every hand of the player is bust. *)
Definition dealerFinalHand (p : Page) (dealerHand supply : list Card) : list Card :=
  if allBusted (playerHands p) then dealerHand else dealerDraws dealerHand supply.

Definition emptyBody : Body :=
  mkBody "" "" JsUndefined JsUndefined JsUndefined "" "".

(** The body [JSON.stringify({ newBalance })] as the server parses it. *)
Definition newBalanceBody (newBalance : float) : Body :=
  mkBody "" "" JsUndefined JsUndefined (Js.jsonNumber newBalance) "" "".

Definition updateBalanceRoute : Method * string := (POST, "/api/users/updateBalance").

Section Engine.

Variable StringToNumber : string -> float.

(** [fetch] of a route of the server at [http://localhost:3000]: the
    response, or [None] when the call rejects. *)
Definition fetch (r : Method * string) (b : Body) (w : World)
  : option ResponseProps * World :=
  match Controller.dispatch StringToNumber (fst r) (snd r) with
  | Some handler =>
      match handler (mkRequest b) w with
      | (Returned res, w') => (Some res, w')
      | (Thrown _, w') => (None, w')
      end
  | None => (None, w)
  end.

(** [updateUserBalance(newBalance)]: show the new balance, post it, and
    show the old balance again when the response is not ok or the call
    rejects. *)
Definition updateUserBalance (newBalance : float) (pw : Page * World)
  : Page * World :=
  let '(p, w) := pw in
  let shown := showBalance newBalance p in
  match fetch updateBalanceRoute (newBalanceBody newBalance) w with
  | (Some response, w') =>
      if Js.statusOk (statusNumber (statusCode response))
      then (shown, w')
      else (showBalance (userBalance p) shown, w')
  | (None, w') => (showBalance (userBalance p) shown, w')
  end.

(** [settle(dh)], without the text of the message it displays. *)
Definition settle (dh : list Card) (pw : Page * World) : Page * World :=
  let p := fst pw in
  let dv := getHandValue dh in
  let totalWinnings := settleHands p dv O (playerHands p) 0%float in
  let '(p', w') := updateUserBalance (userBalance p + totalWinnings)%float pw in
  (setGameOver true p', w').

(** [dealerPlay()], without its pauses. *)
Definition dealerPlay (dealerHand supply : list Card) (pw : Page * World)
  : Page * World :=
  settle (dealerFinalHand (fst pw) dealerHand supply) pw.

End Engine.

End BlackjackPage.

(** * The application on the schema of the repository

    The schema shipped with the repository declares the column
    [balance DECIMAL(10,2) NOT NULL], and the server opens the driver with
    no type parsers: the driver hands a numeric column to JavaScript as its
    decimal text, and binds a JavaScript number to a statement as the text
    [Number::toString] writes.  This part embeds the same classes with the
    balance as the column keeps it and as the code receives it. *)

(** ** The column [DECIMAL(10,2)] *)

Module Pg.

(** A value of the column: NaN, or a number of hundredths. *)
Inductive Numeric : Type :=
| NaN
| Fixed (hundredths : Z).

(** What the column makes of a text bound to it. *)
Inductive Read : Type :=
| Stored (v : Numeric)
| Refused (message : string).

Definition isSpace (c : ascii) : bool :=
  let n := Js.code c in ((9 <=? n) && (n <=? 13)) || (n =? 32).

Definition quote : string := String (ascii_of_nat 34) EmptyString.

Definition invalidSyntax (text : string) : string :=
  "invalid input syntax for type numeric: " ++ quote ++ text ++ quote.

Definition overflow : string := "numeric field overflow".

Definition lower (s : list ascii) : string :=
  Js.toLowerCase (string_of_list_ascii s).

(** [d * 10^x] in hundredths, rounded half away from zero; [d >= 0]. *)
Definition hundredthsOf (d x : Z) : Z :=
  if 0 <=? x + 2 then d * 10 ^ (x + 2)
  else let q := 10 ^ (- (x + 2)) in (2 * d + q) / (2 * q).

(** The input function of the column: spaces around the text are skipped,
    the text is NaN or a signed decimal with an optional exponent, the
    value is rounded to two decimals, and a value that then needs more
    than eight digits before the point is refused, like an infinity. *)
Definition numericIn (text : string) : Read :=
  let s := Js.trim isSpace (list_ascii_of_string text) in
  if (lower s =? "nan")%string then Stored NaN
  else
    let '(negative, u) := Js.readSign s in
    if (lower u =? "infinity")%string || (lower u =? "inf")%string
    then Refused overflow
    else
      match Js.readDecimal u with
      | Some (d, x, []) =>
          let h := hundredthsOf d x in
          if 10 ^ 10 <=? h then Refused overflow
          else Stored (Fixed (if negative then - h else h))
      | _ => Refused (invalidSyntax text)
      end.

Definition twoDigits (n : Z) : string :=
  (if n <? 10 then "0" else "") ++ Js.toString n.

(** The output function of the column: the text the driver returns. *)
Definition numericOut (v : Numeric) : string :=
  match v with
  | NaN => "NaN"
  | Fixed h =>
      (if h <? 0 then "-" else "")
      ++ Js.toString (Z.abs h / 100) ++ "." ++ twoDigits (Z.abs h mod 100)
  end.

End Pg.

(** ** The store, the session and the random source *)

Module Live.

(** The [users] table: a row as the database keeps it. *)
Module Db.

Record Row : Type := mkRow {
  id : Z;
  username : string;
  email : string;
  password : string;
  balance : Pg.Numeric
}.

Definition setBalance (v : Pg.Numeric) (r : Row) : Row :=
  mkRow (id r) (username r) (email r) (password r) v.

Definition setPassword (p : string) (r : Row) : Row :=
  mkRow (id r) (username r) (email r) p (balance r).

Definition setProfile (n e : string) (r : Row) : Row :=
  mkRow (id r) n e (password r) (balance r).

End Db.

(** A row as the driver returns it: the balance is the text of the
    column. *)
Record User : Type := mkUser {
  id : Z;
  username : string;
  email : string;
  balance : string;
  password : string
}.

Definition present (r : Db.Row) : User :=
  mkUser (Db.id r) (Db.username r) (Db.email r)
    (Pg.numericOut (Db.balance r)) (Db.password r).

(** [req.session.data]: the keys the handlers read or write. *)
Record Session : Type := mkSession {
  user : option SessionUser;
  userName : JsValue;
  userEmail : JsValue
}.

Record Site : Type := mkSite {
  rows : list Db.Row;
  session : Session;
  random : nat -> float;
  draws : nat
}.

Definition withRows (rs : list Db.Row) (w : Site) : Site :=
  mkSite rs (session w) (random w) (draws w).

Definition withSession (s : Session) (w : Site) : Site :=
  mkSite (rows w) s (random w) (draws w).

Definition nextDraw (w : Site) : Site :=
  mkSite (rows w) (session w) (random w) (S (draws w)).

(** Computations that may throw, over a site; what was done before a
    [throw] stays done. *)
Definition Task (A : Type) : Type := Site -> Outcome A * Site.

Definition ret {A} (a : A) : Task A := fun w => (Returned a, w).

Definition throw {A} (message : string) : Task A := fun w => (Thrown message, w).

Definition bind {A B} (c : Task A) (k : A -> Task B) : Task B :=
  fun w =>
    match c w with
    | (Returned a, w') => k a w'
    | (Thrown m, w') => (Thrown m, w')
    end.

Definition tryCatch {A} (c : Task A) (h : string -> Task A) : Task A :=
  fun w =>
    match c w with
    | (Returned a, w') => (Returned a, w')
    | (Thrown m, w') => h m w'
    end.

Declare Scope live_scope.
Delimit Scope live_scope with live.
Notation "x <- c ;; k" := (bind c (fun x => k))
  (at level 61, c at next level, right associativity) : live_scope.
Notation "c ;; k" := (bind c (fun _ => k))
  (at level 61, right associativity) : live_scope.
Local Open Scope live_scope.

Definition Math_random : Task float :=
  fun w => (Returned (random w (draws w)), nextDraw w).

(** A value bound to [${newBalance}]: the driver sends a number as the
    text [Number::toString] writes, and a string as it is. *)
Inductive Scalar : Type :=
| Num (x : float)
| Str (s : string).

Definition textOf (v : Scalar) : string :=
  match v with
  | Num x => Js.numberToString x
  | Str s => s
  end.

(** The messages of a [TypeError], as V8 words them. *)
Definition cannotRead (v : JsValue) (property : string) : string :=
  "Cannot read properties of "
  ++ match v with JsNull => "null" | _ => "undefined" end
  ++ " (reading '" ++ property ++ "')".

Definition notAFunction (callee : string) : string :=
  callee ++ " is not a function".

(** A value bound to a [TEXT] column or compared with one: a string goes
    as it is.  What the driver and the database make of a value that is
    not a string is left open, as [bindText]: the text received, or the
    message of the error raised. *)
Definition textParameter (bindText : JsValue -> string + string) (v : JsValue)
  : string + string :=
  match v with
  | JsString s => inl s
  | _ => bindText v
  end.

(** The message of a [NOT NULL] violation. *)
Definition notNull (column : string) : string :=
  "null value in column " ++ Pg.quote ++ column ++ Pg.quote
  ++ " of relation " ++ Pg.quote ++ "users" ++ Pg.quote
  ++ " violates not-null constraint".

(** ** UserModel *)

Module UserModel.

(** [SELECT ... FROM users WHERE id = ...], then [users[0] || null]. *)
Definition getById (userId : Z) : Task (option User) :=
  fun w =>
    (Returned (option_map present (find (fun r => Db.id r =? userId) (rows w))), w).

(** [UPDATE users SET balance = ... WHERE id = ...]: the statement is
    refused, and the call throws, when the column does not take the text
    bound to it. *)
Definition updateBalance (userId : Z) (newBalance : Scalar) : Task unit :=
  fun w =>
    match Pg.numericIn (textOf newBalance) with
    | Pg.Stored v =>
        (Returned tt,
         withRows
           (map (fun r => if Db.id r =? userId then Db.setBalance v r else r)
              (rows w)) w)
    | Pg.Refused m => (Thrown m, w)
    end.

Section Driver.

Variable bindText : JsValue -> string + string.

(** [UPDATE users SET password = ... WHERE id = ...] *)
Definition updatePassword (userId : Z) (newPassword : JsValue) : Task unit :=
  fun w =>
    match textParameter bindText newPassword with
    | inl p =>
        (Returned tt,
         withRows
           (map (fun r => if Db.id r =? userId then Db.setPassword p r else r)
              (rows w)) w)
    | inr m => (Thrown m, w)
    end.

End Driver.

End UserModel.

(** ** GameService *)

Module GameService.

Record CoinFlipResult : Type := mkCoinFlipResult {
  outcome : string;
  cfWin : bool;
  cfPayout : float;
  cfNewBalance : float
}.

Record RouletteResult : Type := mkRouletteResult {
  result : Z;
  resultColor : string;
  win : bool;
  payout : float;
  newBalance : Scalar
}.

(** The [if ... else if ...] chain of [playRoulette]; [===] does not
    coerce, so a selector that is not a string matches no rule. *)
Definition matchBet (betType : JsValue) (pocket : GameService.Pocket) (resultNumber : Z)
  : bool * float :=
  if Js.strictEqString betType (Js.toString (GameService.number pocket))
  then (true, 35%float)
  else if Js.strictEqString betType (GameService.color pocket) then (true, 1%float)
  else if Js.strictEqString betType "even"
          && negb (resultNumber =? 0) && (Z.rem resultNumber 2 =? 0)
       then (true, 1%float)
  else if Js.strictEqString betType "odd" && (Z.rem resultNumber 2 =? 1)
       then (true, 1%float)
  else if Js.strictEqString betType "1-12"
          && (1 <=? resultNumber) && (resultNumber <=? 12)
       then (true, 2%float)
  else if Js.strictEqString betType "13-24"
          && (13 <=? resultNumber) && (resultNumber <=? 24)
       then (true, 2%float)
  else if Js.strictEqString betType "25-36"
          && (25 <=? resultNumber) && (resultNumber <=? 36)
       then (true, 2%float)
  else (false, 0%float).

(** [playCoinFlip(userId, guess, amount)]: [user.balance] is a string, which
    [>] and [-] read as a number when the other side is one. *)
Definition playCoinFlip (userId : Z) (guess : string) (amount : JsValue)
  : Task CoinFlipResult :=
  match amount with
  | JsNumber amount =>
      if negb (Js.truthy (JsString guess)) || Js.le amount 0
      then throw "Invalid bet input"
      else
        user <- UserModel.getById userId ;;
        match user with
        | None => throw "User not found"
        | Some user =>
            if Js.gtValue (JsNumber amount) (JsString (balance user))
            then throw "Insufficient funds"
            else
              r <- Math_random ;;
              let outcome := if Js.lt r 0.5 then "heads" else "tails" in
              let win := (guess =? outcome)%string in
              let payout := if win then (amount * 1.95)%float else 0%float in
              let newBalance :=
                (Js.stringToNumber (balance user) - amount + payout)%float in
              UserModel.updateBalance userId (Num newBalance) ;;
              ret (mkCoinFlipResult outcome win payout newBalance)
        end
  | _ => throw "Invalid bet input"
  end.

(** [Math.floor(Math.random() * 37)] *)
Definition getRandomResult : Task (float * option Z) :=
  r <- Math_random ;;
  ret ((r * 37)%float, Js.floor (r * 37)%float).

(** [playRoulette(userId, betType, amount)].  On a win
    [user.balance + payout] has a string on its left: it is the text of
    the balance followed by the text of the payout.  On a loss
    [user.balance - amount] is a difference of numbers. *)
Definition playRoulette (userId : Z) (betType amount : JsValue)
  : Task RouletteResult :=
  user <- UserModel.getById userId ;;
  match user with
  | None => throw "User not found"
  | Some user =>
      if Js.gtValue amount (JsString (balance user))
      then throw "Insufficient funds"
      else
        drawn <- getRandomResult ;;
        let '(scaled, resultNumber) := drawn in
        match resultNumber with
        | None => throw (GameService.invalidSpin scaled None)
        | Some n =>
            match GameService.getResultDetails n with
            | None => throw (GameService.invalidSpin scaled (Some n))
            | Some pocket =>
                let '(win, payoutMultiplier) := matchBet betType pocket n in
                let payout :=
                  if win then (Js.toNumber amount * payoutMultiplier)%float
                  else 0%float in
                let newBalance :=
                  if win then Str (balance user ++ Js.numberToString payout)
                  else Num (Js.stringToNumber (balance user) - Js.toNumber amount)%float in
                UserModel.updateBalance userId newBalance ;;
                ret (mkRouletteResult (GameService.number pocket)
                       (GameService.color pocket) win payout newBalance)
            end
        end
  end.

End GameService.

(** ** AuthService *)

Module AuthService.

Definition getProfile (userId : Z) : Task (option User) :=
  UserModel.getById userId.

(** [session.set("user", null)] *)
Definition logout : Task unit :=
  fun w =>
    (Returned tt,
     withSession (mkSession None (userName (session w)) (userEmail (session w))) w).

Definition updateBalance (userId : Z) (newBalance : JsValue) : Task unit :=
  match newBalance with
  | JsNumber x =>
      if Js.isNaN x || Js.lt x 0
      then throw "Invalid balance value"
      else UserModel.updateBalance userId (Num x)
  | _ => throw "Invalid balance value"
  end.

Section Driver.

Variable bindText : JsValue -> string + string.

(** [updatePassword(userId, currentPassword, newPassword)]:
    [newPassword.length] throws on [undefined] and [null], and is
    [undefined] on a number or a boolean, which [< 6] lets through. *)
Definition updatePassword (userId : Z) (currentPassword newPassword : JsValue)
  : Task unit :=
  user <- UserModel.getById userId ;;
  match user with
  | None => throw "User not found"
  | Some user =>
      if negb (Js.strictEqString currentPassword (password user))
      then throw "Current password is incorrect"
      else
        match newPassword with
        | JsUndefined | JsNull => throw (cannotRead newPassword "length")
        | JsString s =>
            if Z.of_nat (String.length s) <? 6
            then throw "New password must be at least 6 characters"
            else UserModel.updatePassword bindText userId newPassword
        | JsNumber _ | JsBoolean _ =>
            UserModel.updatePassword bindText userId newPassword
        end
  end.

End Driver.

End AuthService.

(** ** Requests and responses *)

(** [req.body]: every field holds whatever the JSON sent holds there,
    [undefined] when the field is missing. *)
Record Body : Type := mkBody {
  guess : JsValue;
  betType : JsValue;
  amount : JsValue;
  bodyBalance : JsValue;
  bodyNewBalance : JsValue;
  currentPassword : JsValue;
  newPassword : JsValue;
  name : JsValue;
  bodyEmail : JsValue
}.

Record Request : Type := mkRequest { body : Body }.

Inductive Payload : Type :=
| RoulettePayload (r : GameService.RouletteResult)
| CoinFlipPayload (r : GameService.CoinFlipResult)
| BlackjackPayload (win : bool) (payout : float)
| ProfilePayload (u : User)
| BalancePayload (balance : JsValue)
| UpdatedProfilePayload (id : Z) (username email balance : string).

Record ResponseProps : Type := mkResponse {
  statusCode : StatusCode;
  message : string;
  payload : option Payload
}.

Definition Session_get_user : Task (option SessionUser) :=
  fun w => (Returned (user (session w)), w).

(** ** Controller *)

Module Controller.

Definition playBlackjack (_req : Request) : Task ResponseProps :=
  ret (mkResponse OK "Blackjack result" (Some (BlackjackPayload false 0%float))).

(** [guess.toLowerCase()] is evaluated inside the [try]: a guess that is
    missing or not a string throws a [TypeError] there. *)
Definition playCoinFlip (req : Request) : Task ResponseProps :=
  let guess := guess (body req) in
  let amount := amount (body req) in
  user <- Session_get_user ;;
  match authenticatedId user with
  | None => ret (mkResponse Unauthorized "Not logged in" None)
  | Some userId =>
      tryCatch
        (lowered <-
           match guess with
           | JsString g => ret (Js.toLowerCase g)
           | JsUndefined | JsNull => throw (cannotRead guess "toLowerCase")
           | JsNumber _ | JsBoolean _ => throw (notAFunction "guess.toLowerCase")
           end ;;
         result <- GameService.playCoinFlip userId lowered amount ;;
         ret (mkResponse OK "Coin flip result" (Some (CoinFlipPayload result))))
        (fun err => ret (mkResponse BadRequest (messageOr err "Flip failed") None))
  end.

Definition playRoulette (req : Request) : Task ResponseProps :=
  let betType := betType (body req) in
  let amount := amount (body req) in
  user <- Session_get_user ;;
  match authenticatedId user with
  | None => ret (mkResponse Unauthorized "Not logged in" None)
  | Some userId =>
      tryCatch
        (result <- GameService.playRoulette userId betType amount ;;
         ret (mkResponse OK "Roulette result" (Some (RoulettePayload result))))
        (fun err => ret (mkResponse BadRequest (messageOr err "Spin failed") None))
  end.

Definition profile (_req : Request) : Task ResponseProps :=
  sessionUser <- Session_get_user ;;
  match authenticatedId sessionUser with
  | None => ret (mkResponse Unauthorized "Not logged in" None)
  | Some userId =>
      tryCatch
        (user <- AuthService.getProfile userId ;;
         match user with
         | None => ret (mkResponse NotFound "User not found" None)
         | Some user =>
             ret (mkResponse OK "Profile fetched" (Some (ProfilePayload user)))
         end)
        (fun err =>
           ret (mkResponse InternalServerError
                  (messageOr err "Failed to fetch profile") None))
  end.

(** [POST /user/balance]: the [UPDATE] is outside any [try], so a refusal
    by the column leaves the handler as an exception. *)
Definition setBalance (req : Request) : Task ResponseProps :=
  userSession <- Session_get_user ;;
  let balance := bodyBalance (body req) in
  match authenticatedId userSession with
  | None => ret (mkResponse Unauthorized "Not logged in" None)
  | Some userId =>
      match balance with
      | JsNumber x =>
          if Js.lt x 0
          then ret (mkResponse BadRequest "Invalid balance" None)
          else
            UserModel.updateBalance userId (Num x) ;;
            ret (mkResponse OK "Balance updated" (Some (BalancePayload balance)))
      | _ => ret (mkResponse BadRequest "Invalid balance" None)
      end
  end.

(** [POST /api/users/updateBalance]; the guard is [!sessionUser]. *)
Definition updateBalance (req : Request) : Task ResponseProps :=
  sessionUser <- Session_get_user ;;
  match sessionUser with
  | None => ret (mkResponse Unauthorized "Not logged in" None)
  | Some su =>
      let newBalance := bodyNewBalance (body req) in
      tryCatch
        (AuthService.updateBalance (sessionUserId su) newBalance ;;
         ret (mkResponse OK "Balance updated" None))
        (fun err =>
           ret (mkResponse BadRequest (messageOr err "Balance update failed") None))
  end.

Definition logout (_req : Request) : Task ResponseProps :=
  tryCatch
    (AuthService.logout ;;
     ret (mkResponse OK "Logged out successfully" None))
    (fun err =>
       ret (mkResponse InternalServerError (messageOr err "Failed to logout") None)).

Section Driver.

Variable bindText : JsValue -> string + string.

Definition updatePassword (req : Request) : Task ResponseProps :=
  sessionUser <- Session_get_user ;;
  match authenticatedId sessionUser with
  | None => ret (mkResponse Unauthorized "Not authenticated" None)
  | Some userId =>
      let currentPassword := currentPassword (body req) in
      let newPassword := newPassword (body req) in
      tryCatch
        (AuthService.updatePassword bindText userId currentPassword newPassword ;;
         ret (mkResponse OK "Password updated successfully" None))
        (fun err =>
           ret (mkResponse BadRequest (messageOr err "Password update failed") None))
  end.

(** [SELECT id FROM users WHERE email = ... AND id != ...] *)
Definition selectOtherByEmail (email : JsValue) (userId : Z) : Task (list Z) :=
  fun w =>
    match textParameter bindText email with
    | inl e =>
        (Returned
           (map Db.id
              (filter (fun r => (Db.email r =? e)%string && negb (Db.id r =? userId))
                 (rows w))), w)
    | inr m => (Thrown m, w)
    end.

(** [UPDATE users SET username = ..., email = ... WHERE id = ...
    RETURNING id, username, email, balance]; [username] is [NOT NULL], so
    a null name is refused when a row is to be updated. *)
Definition updateProfileRow (name email : JsValue) (userId : Z) : Task (list User) :=
  fun w =>
    match textParameter bindText email with
    | inr m => (Thrown m, w)
    | inl e =>
        let found := filter (fun r => Db.id r =? userId) (rows w) in
        match name with
        | JsNull =>
            match found with
            | [] => (Returned [], w)
            | _ :: _ => (Thrown (notNull "username"), w)
            end
        | _ =>
            match textParameter bindText name with
            | inr m => (Thrown m, w)
            | inl n =>
                (Returned (map (fun r => present (Db.setProfile n e r)) found),
                 withRows
                   (map (fun r => if Db.id r =? userId then Db.setProfile n e r else r)
                      (rows w)) w)
            end
        end
    end.

(** [PUT /user/profile]; [updatedUser[0].name] is [undefined], the row
    returned having no such key. *)
Definition updateProfile (req : Request) : Task ResponseProps :=
  let name := name (body req) in
  let email := bodyEmail (body req) in
  sessionUser <- Session_get_user ;;
  match authenticatedId sessionUser with
  | None => ret (mkResponse Unauthorized "Not authenticated" None)
  | Some userId =>
      if negb (Js.truthy email)
      then ret (mkResponse BadRequest "Email is required" None)
      else
        tryCatch
          (existingUser <- selectOtherByEmail email userId ;;
           match existingUser with
           | _ :: _ => ret (mkResponse BadRequest "Email is already taken" None)
           | [] =>
               updatedUser <-
                 updateProfileRow (if Js.truthy name then name else JsNull)
                   email userId ;;
               match updatedUser with
               | [] => ret (mkResponse NotFound "User not found" None)
               | u :: _ =>
                   (fun w =>
                      (Returned tt,
                       withSession
                         (mkSession (user (session w)) JsUndefined
                            (JsString (Live.email u))) w)) ;;
                   ret (mkResponse OK "Profile updated successfully"
                          (Some (UpdatedProfilePayload (id u) (username u)
                                   (Live.email u) (balance u))))
               end
           end)
          (fun _ => ret (mkResponse InternalServerError "Failed to update profile" None))
  end.

(** The routes of [registerRoutes] that read the session, with their
    handlers. *)
Definition sessionRoutes : list (Method * string * (Request -> Task ResponseProps)) :=
  [ (GET, "/profile", profile);
    (POST, "/play/roulette", playRoulette);
    (POST, "/play/blackjack", playBlackjack);
    (POST, "/play/coinflip", playCoinFlip);
    (POST, "/user/balance", setBalance);
    (POST, "/api/users/updateBalance", updateBalance);
    (PUT, "/user/profile", updateProfile);
    (PUT, "/user/password", updatePassword);
    (POST, "/auth/logout", logout) ].

End Driver.

End Controller.

(** ** The blackjack page *)

(** The page renders [user.balance.toFixed(2)], so its handlers exist only
    while the balance of the context is a number.  A handler reads the
    state of the render it was created in; it is modelled by the state
    its [set...] calls leave and by the arguments of its calls of
    [updateUserBalance], in order. *)

Module Blackjack.

Record Page : Type := mkPage {
  userBalance : float;
  deckId : bool;
  bet : float;
  inGame : bool;
  dealerHand : list BlackjackPage.Card;
  playerHands : list (list BlackjackPage.Card);
  bets : list float;
  gameOver : bool;
  showInsurance : bool;
  playerBlackjack : bool
}.




Definition setHands (d : list BlackjackPage.Card) (ph : list (list BlackjackPage.Card))
  (bs : list float) (p : Page) : Page :=
  mkPage (userBalance p) (deckId p) (bet p) (inGame p) d ph bs
    (gameOver p) (showInsurance p) (playerBlackjack p).

Definition setGameOver (v : bool) (p : Page) : Page :=
  mkPage (userBalance p) (deckId p) (bet p) (inGame p) (dealerHand p) (playerHands p)
    (bets p) v (showInsurance p) (playerBlackjack p).



(** The body [JSON.stringify({ newBalance })] as the server parses it. *)
Definition newBalanceBody (newBalance : float) : Body :=
  mkBody JsUndefined JsUndefined JsUndefined JsUndefined (Js.jsonNumber newBalance)
    JsUndefined JsUndefined JsUndefined JsUndefined.

(** The request of [updateUserBalance]: its method and its path on the
    server at [http://localhost:3000]. *)
Definition updateBalanceRoute : Method * string := (POST, "/api/users/updateBalance").

(** [updateUserBalance(newBalance)] against the server: the balance shown
    once the response is in, which is the old one when the response is
    not ok, and the site the handler leaves. *)
Definition updateUserBalance (newBalance : float) (p : Page) (w : Site) : float * Site :=
  match Controller.updateBalance (mkRequest (newBalanceBody newBalance)) w with
  | (Returned response, w') =>
      if Js.statusOk (statusNumber (statusCode response))
      then (newBalance, w')
      else (userBalance p, w')
  | (Thrown _, w') => (userBalance p, w')
  end.








(** The part of the page that [settle] reads. *)
Definition hands (p : Page) : BlackjackPage.Page :=
  BlackjackPage.mkPage (userBalance p) (playerHands p) (bets p)
    (playerBlackjack p) (gameOver p).

Definition settle (dh : list BlackjackPage.Card) (p : Page) : Page * list float :=
  let dv := BlackjackPage.getHandValue dh in
  let totalWinnings :=
    BlackjackPage.settleHands (hands p) dv O (playerHands p) 0%float in
  (setGameOver true p, [(userBalance p + totalWinnings)%float]).

(** [dealerPlay()], the deck service dealing the cards of [supply]. *)
Definition dealerPlay (supply : list BlackjackPage.Card) (p : Page) : Page * list float :=
  let dh := BlackjackPage.dealerFinalHand (hands p) (dealerHand p) supply in
  let '(q, calls) := settle dh p in
  (setHands dh (playerHands q) (bets q) q, calls).

End Blackjack.

End Live.

(** * Specification-level definitions *)

Definition isWrite (e : Effect) : bool :=
  match e with
  | SqlUpdateBalance _ _ | SqlUpdatePassword _ _ | SessionSet _ => true
  | _ => false
  end.

(** The effects a run added to the journal. *)
Definition added (w w' : World) (es : list Effect) : Prop :=
  journal w' = (journal w ++ es)%list.

(** A run left the store and the session as they were and performed no
    write. *)
Definition noWrite (w w' : World) : Prop :=
  users w' = users w /\
  sessionUser w' = sessionUser w /\
  exists es, added w w' es /\ forallb (fun e => negb (isWrite e)) es = true.

(** The routes whose handler tests [!user?.id] before anything else. *)
Definition idGuardedRoutes : list (Method * string) :=
  [ (GET, "/profile");
    (POST, "/play/roulette");
    (POST, "/play/coinflip");
    (POST, "/user/balance");
    (PUT, "/user/password") ].

Definition unauthorized (message : string) : ResponseProps :=
  mkResponse Unauthorized message None.


(** A request whose body carries only [newBalance]. *)
Definition newBalanceRequest (v : JsValue) : Request :=
  mkRequest (mkBody "" "" JsUndefined JsUndefined v "" "").

(** The rule table of the roulette, in the order of the specification: the
    condition of each rule on the selector and the pocket drawn, and its
    payout multiplier. *)
Definition ruleTable (betType : string) (pocket : GameService.Pocket)
  : list (bool * float) :=
  let n := GameService.number pocket in
  [ ((betType =? Js.toString n)%string, 35%float);
    ((betType =? GameService.color pocket)%string, 1%float);
    ((betType =? "even")%string && negb (n =? 0) && Z.even n, 1%float);
    ((betType =? "odd")%string && Z.odd n, 1%float);
    ((betType =? "1-12")%string && (1 <=? n) && (n <=? 12), 2%float);
    ((betType =? "13-24")%string && (13 <=? n) && (n <=? 24), 2%float);
    ((betType =? "25-36")%string && (25 <=? n) && (n <=? 36), 2%float) ].

(** Only the first rule that matches is applied; no rule is a loss. *)
Definition firstMatch (rules : list (bool * float)) : bool * float :=
  match find fst rules with
  | Some (_, multiplier) => (true, multiplier)
  | None => (false, 0%float)
  end.

(** The rank of a card: 10 for a face card, 11 for an ace, the face value
    of a numeral card. *)
Definition rank (c : BlackjackPage.Card) : BlackjackPage.Total :=
  let v := BlackjackPage.value c in
  if (v =? "KING")%string || (v =? "QUEEN")%string || (v =? "JACK")%string
  then Some 10
  else if (v =? "ACE")%string then Some 11
  else BlackjackPage.parseInt v.

Definition isAce (c : BlackjackPage.Card) : bool :=
  (BlackjackPage.value c =? "ACE")%string.

(** The sum of the ranks of a hand, every ace counted as 11. *)
Definition rankSum (cards : list BlackjackPage.Card) : BlackjackPage.Total :=
  fold_right (fun c t => BlackjackPage.plus t (rank c)) (Some 0) cards.

Definition aceCount (cards : list BlackjackPage.Card) : nat :=
  List.length (filter isAce cards).

(** The number of aces counted as 1 in a hand whose ranks sum to [t]: ten
    is subtracted once per ace while the total exceeds 21, that is the
    least [k] with [t - 10 k <= 21], capped at the number of aces. *)
Definition acesDemoted (t : Z) (aces : nat) : Z :=
  Z.min (Z.of_nat aces) (Z.max 0 ((t - 12) / 10)).

Definition handValue (cards : list BlackjackPage.Card) : BlackjackPage.Total :=
  option_map (fun t => t - 10 * acesDemoted t (aceCount cards)) (rankSum cards).

(** The total of a hand with every ace counted as 1. *)
Definition hardTotal (cards : list BlackjackPage.Card) : BlackjackPage.Total :=
  option_map (fun t => t - 10 * Z.of_nat (aceCount cards)) (rankSum cards).


(** What identifies a row and its credential: everything but the balance. *)
Definition identity (u : User) : Z * string * string * string :=
  (id u, username u, email u, password u).

(** The rows of the users other than [userId]. *)
Definition rowsOfOthers (userId : Z) (us : list User) : list User :=
  filter (fun u => negb (id u =? userId)) us.

(** ** Scenarios *)

(** An engine whose StringToNumber is never consulted by the scenarios. *)
Definition noStrings : string -> float := fun _ => PrimFloat.nan.

Definition player : User :=
  mkUser 1 "player" "player@example.com" "secret1" 100%float.

(** A store with one user holding 100, a session for that user or none,
    and a random source that always returns [r]. *)
Definition casino (su : option SessionUser) (r : float) : World :=
  mkWorld [player] su (fun _ => r) O [].

Definition loggedIn : option SessionUser := Some (mkSessionUser 1).

Definition card (v : string) : BlackjackPage.Card := BlackjackPage.mkCard v "SPADES".

(** ** Specification-level definitions on the schema *)

(** The decimal numerals of the numbers of the wheel. *)
Definition numerals : list string :=
  [ "0"; "1"; "2"; "3"; "4"; "5"; "6"; "7"; "8"; "9";
    "10"; "11"; "12"; "13"; "14"; "15"; "16"; "17"; "18"; "19";
    "20"; "21"; "22"; "23"; "24"; "25"; "26"; "27"; "28"; "29";
    "30"; "31"; "32"; "33"; "34"; "35"; "36" ].

(** A selector names the number [n] when it is the numeral of [n]. *)
Definition namesNumber (betType : string) (n : Z) : bool :=
  (0 <=? n) &&
  match nth_error numerals (Z.to_nat n) with
  | Some numeral => (betType =? numeral)%string
  | None => false
  end.

(** The rules of the roulette in the order of the specification, the
    exact-number rule being stated on the numerals above. *)
Definition payoutRules (betType : string) (pocket : GameService.Pocket)
  : list (bool * float) :=
  let n := GameService.number pocket in
  [ (namesNumber betType n, 35%float);
    ((betType =? GameService.color pocket)%string, 1%float);
    ((betType =? "even")%string && negb (n =? 0) && Z.even n, 1%float);
    ((betType =? "odd")%string && Z.odd n, 1%float);
    ((betType =? "1-12")%string && (1 <=? n) && (n <=? 12), 2%float);
    ((betType =? "13-24")%string && (13 <=? n) && (n <=? 24), 2%float);
    ((betType =? "25-36")%string && (25 <=? n) && (n <=? 36), 2%float) ].

(** The cards of the deck and what each counts for, an ace counting 11. *)
Definition faceValues : list (string * Z) :=
  [ ("2", 2); ("3", 3); ("4", 4); ("5", 5); ("6", 6); ("7", 7); ("8", 8);
    ("9", 9); ("10", 10); ("JACK", 10); ("QUEEN", 10); ("KING", 10); ("ACE", 11) ].

Definition faceValue (c : BlackjackPage.Card) : option Z :=
  option_map snd
    (find (fun entry => (fst entry =? BlackjackPage.value c)%string) faceValues).

Definition ofTheDeck (c : BlackjackPage.Card) : Prop := faceValue c <> None.

(** The sum of what the cards of a hand count for. *)
Definition points (cards : list BlackjackPage.Card) : Z :=
  fold_right (fun c t => t + match faceValue c with Some v => v | None => 0 end)
    0 cards.




(** The table once the balance of [userId] is set to [v]. *)
Definition balanceStored (userId : Z) (v : Pg.Numeric) (rs : list Live.Db.Row)
  : list Live.Db.Row :=
  map (fun r => if Live.Db.id r =? userId then Live.Db.setBalance v r else r) rs.

(** What the column keeps of a value posted as [newBalance]: the value is
    a number, not NaN and not below 0, and the column takes the text of it. *)
Definition accepted (v : JsValue) : option Pg.Numeric :=
  match v with
  | JsNumber x =>
      if Js.isNaN x || Js.lt x 0 then None
      else
        match Pg.numericIn (Js.numberToString x) with
        | Pg.Stored c => Some c
        | Pg.Refused _ => None
        end
  | _ => None
  end.


(** ** Scenarios on the schema *)

(** A driver that refuses every value that is not a string. *)
Definition stringsOnly : JsValue -> string + string := fun _ => inr "refused".

(** The row of user 1 holding [h] hundredths. *)
Definition holder (h : Z) : Live.Db.Row :=
  Live.Db.mkRow 1 "player" "player@example.com" "secret1" (Pg.Fixed h).

(** A site with that one row, a session for [su] and a random source that
    always returns [r]. *)
Definition house (su : option SessionUser) (h : Z) (r : float) : Live.Site :=
  Live.mkSite [holder h] (Live.mkSession su JsUndefined JsUndefined) (fun _ => r) O.


(** A request whose body is [{ newBalance }]. *)
Definition balancePost (v : JsValue) : Live.Request :=
  Live.mkRequest
    (Live.mkBody JsUndefined JsUndefined JsUndefined JsUndefined v
       JsUndefined JsUndefined JsUndefined JsUndefined).

(** The body [{ betType, amount }]. *)
Definition spinBody (betType amount : JsValue) : Live.Body :=
  Live.mkBody JsUndefined betType amount JsUndefined JsUndefined
    JsUndefined JsUndefined JsUndefined JsUndefined.

(** The capital letters and the small letters, in pairs. *)
Definition letterPairs : list (ascii * ascii) :=
  combine (list_ascii_of_string "ABCDEFGHIJKLMNOPQRSTUVWXYZ")
    (list_ascii_of_string "abcdefghijklmnopqrstuvwxyz").

(** Two characters are the same letter when they are equal or the capital
    and the small form of one letter. *)
Definition sameLetter (c d : ascii) : bool :=
  (c =? d)%char
  || existsb (fun p => ((fst p =? c)%char && (snd p =? d)%char)
                       || ((fst p =? d)%char && (snd p =? c)%char)) letterPairs.

Fixpoint sameLetters (g h : string) : bool :=
  match g, h with
  | EmptyString, EmptyString => true
  | String c g', String d h' => sameLetter c d && sameLetters g' h'
  | _, _ => false
  end.

(** The body [{ guess, amount }]. *)
Definition flipBody (guess amount : JsValue) : Live.Body :=
  Live.mkBody guess JsUndefined amount JsUndefined JsUndefined
    JsUndefined JsUndefined JsUndefined JsUndefined.

(** The body [{ balance }]. *)
Definition balanceBody (v : JsValue) : Live.Body :=
  Live.mkBody JsUndefined JsUndefined JsUndefined v JsUndefined
    JsUndefined JsUndefined JsUndefined JsUndefined.

(** The body [{ currentPassword, newPassword }]. *)
Definition passwordBody (currentPassword newPassword : JsValue) : Live.Body :=
  Live.mkBody JsUndefined JsUndefined JsUndefined JsUndefined JsUndefined
    currentPassword newPassword JsUndefined JsUndefined.

(** The table once the password of [userId] is set to [p]. *)
Definition passwordStored (userId : Z) (p : string) (rs : list Live.Db.Row)
  : list Live.Db.Row :=
  map (fun r => if Live.Db.id r =? userId then Live.Db.setPassword p r else r) rs.

(** The body [{ name, email }]. *)
Definition profileBody (name email : JsValue) : Live.Body :=
  Live.mkBody JsUndefined JsUndefined JsUndefined JsUndefined JsUndefined
    JsUndefined JsUndefined name email.

(** Another user than [userId] holds the email [e]. *)
Definition emailTaken (e : string) (userId : Z) (rs : list Live.Db.Row) : bool :=
  existsb (fun r => (Live.Db.email r =? e)%string && negb (Live.Db.id r =? userId)) rs.

(** * Properties *)

(** ** The store *)

Lemma find_updateBalance (userId : Z) (b : float) (us : list User) (u : User) :
  find (fun u => id u =? userId) us = Some u ->
  find (fun u => id u =? userId)
    (map (fun u => if id u =? userId then UserModel.setBalance b u else u) us)
  = Some (UserModel.setBalance b u).
Proof.
  induction us as [|v us IH]; simpl; [discriminate|].
  destruct (id v =? userId) eqn:E; simpl.
  - rewrite E. intros H; inversion H; reflexivity.
  - rewrite E. exact IH.
Qed.


Lemma find_updateBalance_other (userId other : Z) (b : float) (us : list User) :
  other <> userId ->
  option_map balance
    (find (fun u => id u =? other)
       (map (fun u => if id u =? userId then UserModel.setBalance b u else u) us))
  = option_map balance (find (fun u => id u =? other) us).
Proof.
  intros Hne. induction us as [|v us IH]; simpl; [reflexivity|].
  destruct (id v =? userId) eqn:E; simpl.
  - apply Z.eqb_eq in E.
    destruct (id v =? other) eqn:E'; [apply Z.eqb_eq in E'; congruence|exact IH].
  - destruct (id v =? other) eqn:E'; [reflexivity|exact IH].
Qed.

Lemma find_updatePassword (userId : Z) (p : string) (us : list User) (u : User) :
  find (fun u => id u =? userId) us = Some u ->
  find (fun u => id u =? userId)
    (map (fun u => if id u =? userId then UserModel.setPassword p u else u) us)
  = Some (UserModel.setPassword p u).
Proof.
  induction us as [|v us IH]; simpl; [discriminate|].
  destruct (id v =? userId) eqn:E; simpl.
  - rewrite E. intros H; inversion H; reflexivity.
  - rewrite E. exact IH.
Qed.

(** ** Running tasks *)

Ltac run :=
  unfold bind, ret, throw, tryCatch, UserModel.getById, UserModel.updateBalance,
    UserModel.updatePassword, Math_random, Session_get_user in *;
  simpl in *.

(** What a successful coin flip computes, read off the code. *)
Lemma playCoinFlip_returned (userId : Z) (guess : string) (amount : JsValue)
  (w w' : World) (res : GameService.CoinFlipResult) :
  GameService.playCoinFlip userId guess amount w = (Returned res, w') ->
  exists a user,
    amount = JsNumber a /\
    Js.le a 0 = false /\ guess <> "" /\
    find (fun u => id u =? userId) (users w) = Some user /\
    Js.gt a (balance user) = false /\
    let r := random w (draws w) in
    let outcome := if Js.lt r 0.5 then "heads" else "tails" in
    let win := (guess =? outcome)%string in
    let payout := if win then (a * 1.95)%float else 0%float in
    let newBalance := (balance user - a + payout)%float in
    res = GameService.mkCoinFlipResult outcome win payout newBalance /\
    users w' = map (fun u => if id u =? userId
                             then UserModel.setBalance newBalance u else u) (users w) /\
    draws w' = S (draws w) /\
    added w w' [SqlSelectById userId; MathRandom; SqlUpdateBalance userId newBalance].
Proof.
  unfold GameService.playCoinFlip.
  destruct amount as [| |b|a|s]; try (run; discriminate).
  destruct (negb (Js.truthy (JsString guess)) || Js.le a 0) eqn:Hv;
    [run; discriminate|].
  apply orb_false_elim in Hv. destruct Hv as [Hg Ha].
  run.
  destruct (find (fun u => id u =? userId) (users w)) as [user|] eqn:Hf;
    [|discriminate].
  destruct (Js.gt a (balance user)) eqn:Hb; [discriminate|].
  intros H. inversion H; subst; clear H.
  exists a, user. repeat split; auto.
  - intros ->. simpl in Hg. discriminate.
  - unfold added. simpl. rewrite <- !app_assoc. reflexivity.
Qed.

(** What a rejected coin flip leaves behind. *)
Lemma playCoinFlip_thrown (userId : Z) (guess : string) (amount : JsValue)
  (w w' : World) (m : string) :
  GameService.playCoinFlip userId guess amount w = (Thrown m, w') ->
  users w' = users w /\ sessionUser w' = sessionUser w /\ draws w' = draws w /\
  ((m = "Invalid bet input" /\ added w w' []) \/
   ((m = "User not found" \/ m = "Insufficient funds") /\
    added w w' [SqlSelectById userId])).
Proof.
  unfold GameService.playCoinFlip, added.
  assert (Hnil : forall l : list Effect, l = (l ++ [])%list)
    by (intros; rewrite app_nil_r; reflexivity).
  destruct amount as [| |b|a|s];
    try solve [run; intros H; inversion H; subst; auto 8].
  destruct (negb (Js.truthy (JsString guess)) || Js.le a 0);
    [run; intros H; inversion H; subst; auto 8|].
  run.
  destruct (find (fun u => id u =? userId) (users w)) as [user|].
  - destruct (Js.gt a (balance user)); intros H; inversion H; subst; simpl; auto 8.
  - intros H; inversion H; subst; simpl; auto 8.
Qed.

Section Roulette.

Variable StringToNumber : string -> float.

Local Abbreviation ToNumber := (Js.ToNumber StringToNumber).
Local Abbreviation playRoulette := (GameService.playRoulette StringToNumber).

(** What a successful spin computes, read off the code. *)
Lemma playRoulette_returned (userId : Z) (betType : string) (amount : JsValue)
  (w w' : World) (res : GameService.RouletteResult) :
  playRoulette userId betType amount w = (Returned res, w') ->
  exists user n pocket,
    find (fun u => id u =? userId) (users w) = Some user /\
    Js.gt (ToNumber amount) (balance user) = false /\
    Js.floor (random w (draws w) * 37)%float = Some n /\
    GameService.getResultDetails n = Some pocket /\
    let a := ToNumber amount in
    let win := fst (GameService.matchBet betType pocket n) in
    let payoutMultiplier := snd (GameService.matchBet betType pocket n) in
    let payout := if win then (a * payoutMultiplier)%float else 0%float in
    let newBalance :=
      if win then (balance user + payout)%float else (balance user - a)%float in
    res = GameService.mkRouletteResult (GameService.number pocket)
            (GameService.color pocket) win payout newBalance /\
    users w' = map (fun u => if id u =? userId
                             then UserModel.setBalance newBalance u else u) (users w) /\
    draws w' = S (draws w) /\
    added w w' [SqlSelectById userId; MathRandom; SqlUpdateBalance userId newBalance].
Proof.
  unfold GameService.playRoulette, GameService.getRandomResult.
  run.
  destruct (find (fun u => id u =? userId) (users w)) as [user|] eqn:Hf;
    [|discriminate].
  destruct (Js.gt (ToNumber amount) (balance user)) eqn:Hb; [discriminate|].
  simpl.
  destruct (Js.floor (random w (draws w) * 37)) as [n|] eqn:Hn; [|discriminate].
  destruct (GameService.getResultDetails n) as [pocket|] eqn:Hp; [|discriminate].
  destruct (GameService.matchBet betType pocket n) as [win mult] eqn:Hm.
  simpl. intros H. inversion H; subst; clear H.
  exists user, n, pocket. rewrite Hm. simpl. repeat split; auto.
  unfold added. simpl. rewrite <- !app_assoc. reflexivity.
Qed.

(** What a rejected spin leaves behind. *)
Lemma playRoulette_thrown (userId : Z) (betType : string) (amount : JsValue)
  (w w' : World) (m : string) :
  playRoulette userId betType amount w = (Thrown m, w') ->
  users w' = users w /\ sessionUser w' = sessionUser w /\
  (((m = "User not found" \/ m = "Insufficient funds") /\
    draws w' = draws w /\ added w w' [SqlSelectById userId]) \/
   (draws w' = S (draws w) /\ added w w' [SqlSelectById userId; MathRandom])).
Proof.
  unfold GameService.playRoulette, GameService.getRandomResult, added.
  run.
  destruct (find (fun u => id u =? userId) (users w)) as [user|].
  - destruct (Js.gt (ToNumber amount) (balance user)).
    + intros H; inversion H; subst; simpl; auto 8.
    + simpl.
      destruct (Js.floor (random w (draws w) * 37)) as [n|].
      * destruct (GameService.getResultDetails n) as [pocket|].
        -- destruct (GameService.matchBet betType pocket n) as [win mult].
           simpl. discriminate.
        -- intros H; inversion H; subst; simpl.
           rewrite <- !app_assoc. auto 8.
      * intros H; inversion H; subst; simpl. rewrite <- !app_assoc. auto 8.
  - intros H; inversion H; subst; simpl; auto 8.
Qed.

End Roulette.

(** ** Settlement of coin flip and roulette *)

(** C6: in every coin flip settlement the outcome is the one drawn, the
    caller wins exactly when the guess equals it, a win pays
    [amount * 1.95] and a loss pays 0. *)
Theorem coinflip_win_and_payout (userId : Z) (guess : string) (amount : JsValue)
  (w w' : World) (res : GameService.CoinFlipResult) :
  GameService.playCoinFlip userId guess amount w = (Returned res, w') ->
  exists a,
    amount = JsNumber a /\
    GameService.outcome res
      = (if Js.lt (random w (draws w)) 0.5 then "heads" else "tails") /\
    (GameService.cfWin res = true <-> guess = GameService.outcome res) /\
    (GameService.cfWin res = true -> GameService.cfPayout res = (a * 1.95)%float) /\
    (GameService.cfWin res = false -> GameService.cfPayout res = 0%float).
Proof.
  intros H.
  destruct (playCoinFlip_returned _ _ _ _ _ _ H)
    as (a & user & -> & _ & _ & _ & _ & -> & _).
  exists a. simpl. repeat split.
  - apply String.eqb_eq.
  - apply String.eqb_eq.
  - intros ->. reflexivity.
  - intros ->. reflexivity.
Qed.

Lemma coinflip_win_and_payout_witness :
  exists a,
    JsNumber 10 = JsNumber a /\
    "heads" = (if Js.lt (random (casino loggedIn 0.3) O) 0.5 then "heads" else "tails") /\
    (true = true <-> "heads" = "heads") /\
    (true = true -> 19.5%float = (a * 1.95)%float) /\
    (true = false -> 19.5%float = 0%float).
Proof.
  apply (coinflip_win_and_payout 1 "heads" (JsNumber 10) (casino loggedIn 0.3)
           (snd (GameService.playCoinFlip 1 "heads" (JsNumber 10) (casino loggedIn 0.3)))
           (GameService.mkCoinFlipResult "heads" true 19.5 109.5)).
  vm_compute. reflexivity.
Defined.

(** A losing flip, with the draw forced to tails. *)
Example coinflip_forced_tails :
  fst (GameService.playCoinFlip 1 "heads" (JsNumber 10) (casino loggedIn 0.7))
  = Returned (GameService.mkCoinFlipResult "tails" false 0 90).
Proof. vm_compute. reflexivity. Qed.

(** C7: a bet that a resolver rejects leaves every persisted balance as it
    was, and the resolver has written nothing. *)
Theorem rejected_bet_writes_nothing (StringToNumber : string -> float)
  (userId : Z) (amount : JsValue) (w w' : World) (m : string) :
  (forall guess,
      GameService.playCoinFlip userId guess amount w = (Thrown m, w') ->
      noWrite w w' /\ forall u, balanceOf u w' = balanceOf u w) /\
  (forall betType,
      GameService.playRoulette StringToNumber userId betType amount w
        = (Thrown m, w') ->
      noWrite w w' /\ forall u, balanceOf u w' = balanceOf u w).
Proof.
  unfold noWrite, balanceOf. split.
  - intros guess H.
    destruct (playCoinFlip_thrown _ _ _ _ _ _ H) as (Hu & Hs & _ & Hj).
    rewrite Hu. repeat split; auto.
    destruct Hj as [[_ Hj]|[_ Hj]]; eexists; (split; [exact Hj|reflexivity]).
  - intros betType H.
    destruct (playRoulette_thrown _ _ _ _ _ _ _ H) as (Hu & Hs & Hj).
    rewrite Hu. repeat split; auto.
    destruct Hj as [(_ & _ & Hj)|[_ Hj]]; eexists; (split; [exact Hj|reflexivity]).
Qed.

Lemma rejected_bet_writes_nothing_witness :
  (balanceOf 1 (snd (GameService.playCoinFlip 1 "heads" (JsNumber 101)
                       (casino loggedIn 0.3)))
   = balanceOf 1 (casino loggedIn 0.3)) /\
  (balanceOf 1 (snd (GameService.playRoulette noStrings 1 "red" (JsNumber 101)
                       (casino loggedIn 0.3)))
   = balanceOf 1 (casino loggedIn 0.3)).
Proof.
  split.
  - apply (proj1 (rejected_bet_writes_nothing noStrings 1 (JsNumber 101)
                    (casino loggedIn 0.3) _ "Insufficient funds") "heads").
    vm_compute. reflexivity.
  - apply (proj2 (rejected_bet_writes_nothing noStrings 1 (JsNumber 101)
                    (casino loggedIn 0.3) _ "Insufficient funds") "red").
    vm_compute. reflexivity.
Defined.

(** ** Validation of the bet *)

(** [playCoinFlip] rejects an amount that is not a number, or is zero or
    negative, before it reads the store or draws. *)
Lemma playCoinFlip_invalid_amount (userId : Z) (guess : string) (amount : JsValue)
  (w : World) :
  (forall a, amount = JsNumber a -> Js.le a 0 = true) ->
  GameService.playCoinFlip userId guess amount w = (Thrown "Invalid bet input", w).
Proof.
  intros Ha. unfold GameService.playCoinFlip.
  destruct amount as [| |b|a|s]; try reflexivity.
  rewrite (Ha a eq_refl), orb_true_r. reflexivity.
Qed.

(** Both resolvers reject an amount above the balance of an existing user
    before any outcome is drawn. *)
Lemma insufficient_funds_before_draw (StringToNumber : string -> float)
  (userId : Z) (a : float) (user : User) (w : World) :
  find (fun u => id u =? userId) (users w) = Some user ->
  Js.gt a (balance user) = true ->
  (forall guess, guess <> "" -> Js.le a 0 = false ->
     GameService.playCoinFlip userId guess (JsNumber a) w
     = (Thrown "Insufficient funds", record (SqlSelectById userId) w)) /\
  (forall betType,
     GameService.playRoulette StringToNumber userId betType (JsNumber a) w
     = (Thrown "Insufficient funds", record (SqlSelectById userId) w)).
Proof.
  intros Hf Hb. split.
  - intros guess Hg Ha. unfold GameService.playCoinFlip.
    assert (Ht : Js.truthy (JsString guess) = true).
    { simpl. destruct (String.eqb_spec guess ""); [contradiction|reflexivity]. }
    rewrite Ht, Ha. run. rewrite Hf, Hb. reflexivity.
  - intros betType. unfold GameService.playRoulette. run. rewrite Hf, Hb. reflexivity.
Qed.

(** C2, at the failing input: [playRoulette] has no test on the amount.  A
    bet of -50 by a user holding 100 is accepted, the wheel is spun (draw
    0.3, pocket 11, black), the bet on "red" loses and the balance
    persisted is 150. *)
Theorem roulette_accepts_negative_amount :
  GameService.playRoulette noStrings 1 "red" (JsNumber (-50)) (casino loggedIn 0.3)
  = (Returned (GameService.mkRouletteResult 11 "black" false 0 150),
     mkWorld [UserModel.setBalance 150 player] loggedIn (fun _ => 0.3%float) 1
       [SqlSelectById 1; MathRandom; SqlUpdateBalance 1 150]).
Proof. vm_compute. reflexivity. Qed.

(** The same bet is refused by [playCoinFlip], which tests [amount <= 0]. *)
Example coinflip_rejects_negative_amount :
  GameService.playCoinFlip 1 "heads" (JsNumber (-50)) (casino loggedIn 0.3)
  = (Thrown "Invalid bet input", casino loggedIn 0.3).
Proof. vm_compute. reflexivity. Qed.

(** NaN passes both tests of [playCoinFlip], [amount <= 0] and
    [amount > balance], and NaN is persisted as the balance. *)
Example coinflip_accepts_nan :
  exists res w',
    GameService.playCoinFlip 1 "heads" (JsNumber PrimFloat.nan) (casino loggedIn 0.3)
    = (Returned res, w') /\
    Js.isNaN (GameService.cfNewBalance res) = true /\
    option_map Js.isNaN (balanceOf 1 w') = Some true.
Proof.
  eexists. eexists. split; [vm_compute; reflexivity|].
  vm_compute. split; reflexivity.
Qed.

(** ** The rule table of the roulette *)

Lemma pockets_in_range :
  Forall (fun p => 0 <= GameService.number p <= 36) GameService.ROULETTE_NUMBERS.
Proof. unfold GameService.ROULETTE_NUMBERS. repeat constructor; simpl; lia. Qed.

Lemma getResultDetails_some (n : Z) (pocket : GameService.Pocket) :
  GameService.getResultDetails n = Some pocket ->
  In pocket GameService.ROULETTE_NUMBERS /\ GameService.number pocket = n /\
  0 <= n <= 36.
Proof.
  unfold GameService.getResultDetails. intros H.
  apply find_some in H. destruct H as [Hin Hn]. apply Z.eqb_eq in Hn.
  pose proof (proj1 (Forall_forall _ _) pockets_in_range pocket Hin) as Hr.
  simpl in Hr. repeat split; auto; lia.
Qed.

(** On the numbers of the wheel, [n % 2 === 0] and [n % 2 === 1] are the
    parity tests. *)
Lemma rem2_even (n : Z) : 0 <= n -> (Z.rem n 2 =? 0) = Z.even n.
Proof.
  intros Hn. rewrite Z.rem_mod_nonneg by lia. rewrite Zmod_even.
  destruct (Z.even n); reflexivity.
Qed.

Lemma rem2_odd (n : Z) : 0 <= n -> (Z.rem n 2 =? 1) = Z.odd n.
Proof.
  intros Hn. rewrite Z.rem_mod_nonneg by lia. rewrite Zmod_odd.
  destruct (Z.odd n); reflexivity.
Qed.

(** The draw forced to pocket 0: bets on "even" and on a dozen lose. *)
Example roulette_zero_loses :
  firstMatch (ruleTable "even" (GameService.mkPocket 0 "green")) = (false, 0%float) /\
  firstMatch (ruleTable "1-12" (GameService.mkPocket 0 "green")) = (false, 0%float) /\
  firstMatch (ruleTable "0" (GameService.mkPocket 0 "green")) = (true, 35%float).
Proof. vm_compute. repeat split; reflexivity. Qed.

(** ** Change of password *)

(** The run of [updatePassword], by cases. *)
Lemma updatePassword_run (userId : Z) (currentPassword newPassword : string)
  (w : World) :
  AuthService.updatePassword userId currentPassword newPassword w
  = let w1 := record (SqlSelectById userId) w in
    match find (fun u => id u =? userId) (users w) with
    | None => (Thrown "User not found", w1)
    | Some user =>
        if negb (password user =? currentPassword)%string
        then (Thrown "Current password is incorrect", w1)
        else if Z.of_nat (String.length newPassword) <? 6
        then (Thrown "New password must be at least 6 characters", w1)
        else UserModel.updatePassword userId newPassword w1
    end.
Proof.
  unfold AuthService.updatePassword, bind, UserModel.getById. simpl.
  destruct (find (fun u => id u =? userId) (users w)) as [user|]; [|reflexivity].
  destruct (negb (password user =? currentPassword)%string); [reflexivity|].
  destruct (Z.of_nat (String.length newPassword) <? 6); reflexivity.
Qed.

Lemma noWrite_select (userId : Z) (w : World) :
  noWrite w (record (SqlSelectById userId) w).
Proof.
  unfold noWrite, added. simpl. repeat split.
  exists [SqlSelectById userId]. split; reflexivity.
Qed.

(** C8: [updatePassword] throws "User not found" when no user has the id;
    otherwise "Current password is incorrect" when [currentPassword] is not
    the stored credential, whatever the new password; otherwise "New
    password must be at least 6 characters" when [newPassword] is shorter
    than 6; otherwise it persists [newPassword] as the user's credential.
    The three failures write nothing. *)
Theorem updatePassword_cases (userId : Z) (currentPassword newPassword : string)
  (w : World) :
  let run := AuthService.updatePassword userId currentPassword newPassword w in
  (passwordOf userId w = None ->
   fst run = Thrown "User not found" /\ noWrite w (snd run)) /\
  (forall stored,
      passwordOf userId w = Some stored -> stored <> currentPassword ->
      fst run = Thrown "Current password is incorrect" /\ noWrite w (snd run)) /\
  (passwordOf userId w = Some currentPassword ->
   (String.length newPassword < 6)%nat ->
   fst run = Thrown "New password must be at least 6 characters" /\
   noWrite w (snd run)) /\
  (passwordOf userId w = Some currentPassword ->
   (6 <= String.length newPassword)%nat ->
   fst run = Returned tt /\
   passwordOf userId (snd run) = Some newPassword /\
   added w (snd run)
     [SqlSelectById userId; SqlUpdatePassword userId newPassword]).
Proof.
  intros run. subst run. rewrite updatePassword_run.
  unfold passwordOf. cbv zeta.
  destruct (find (fun u => id u =? userId) (users w)) as [user|] eqn:Hf;
    cbn [option_map].
  - split; [discriminate|].
    split; [|split].
    + intros stored Hs Hne. injection Hs as Hs.
      destruct (String.eqb_spec (password user) currentPassword) as [He|He];
        [congruence|].
      cbn [negb fst snd]. split; [reflexivity|apply noWrite_select].
    + intros Hs Hlen. injection Hs as Hs.
      rewrite Hs, String.eqb_refl. cbn [negb].
      destruct (Z.ltb_spec (Z.of_nat (String.length newPassword)) 6); [|lia].
      cbn [fst snd]. split; [reflexivity|apply noWrite_select].
    + intros Hs Hlen. injection Hs as Hs.
      rewrite Hs, String.eqb_refl. cbn [negb].
      destruct (Z.ltb_spec (Z.of_nat (String.length newPassword)) 6); [lia|].
      unfold UserModel.updatePassword, added. cbn [fst snd].
      repeat split.
      * simpl. rewrite (find_updatePassword _ _ _ _ Hf). reflexivity.
      * simpl. rewrite <- app_assoc. reflexivity.
  - split; [|repeat split; discriminate].
    intros _. cbn [fst snd]. split; [reflexivity|apply noWrite_select].
Qed.

Lemma updatePassword_cases_witness :
  (fst (AuthService.updatePassword 2 "secret1" "longer-secret" (casino loggedIn 0))
   = Thrown "User not found") /\
  (fst (AuthService.updatePassword 1 "wrong" "abc" (casino loggedIn 0))
   = Thrown "Current password is incorrect") /\
  (fst (AuthService.updatePassword 1 "secret1" "abcde" (casino loggedIn 0))
   = Thrown "New password must be at least 6 characters") /\
  (passwordOf 1 (snd (AuthService.updatePassword 1 "secret1" "abcdef"
                        (casino loggedIn 0)))
   = Some "abcdef").
Proof.
  split; [|split; [|split]].
  - apply (proj1 (updatePassword_cases 2 "secret1" "longer-secret"
                    (casino loggedIn 0))).
    reflexivity.
  - apply (proj1 (proj2 (updatePassword_cases 1 "wrong" "abc" (casino loggedIn 0)))
             "secret1"); [reflexivity|discriminate].
  - apply (proj1 (proj2 (proj2 (updatePassword_cases 1 "secret1" "abcde"
                                  (casino loggedIn 0)))));
      [reflexivity|simpl; lia].
  - apply (proj2 (proj2 (proj2 (updatePassword_cases 1 "secret1" "abcdef"
                                  (casino loggedIn 0)))));
      [reflexivity|simpl; lia].
Defined.

(** ** The value of a hand *)

Lemma plus_assoc_total (a b c : BlackjackPage.Total) :
  BlackjackPage.plus (BlackjackPage.plus a b) c
  = BlackjackPage.plus a (BlackjackPage.plus c b).
Proof.
  destruct a, b, c; simpl; try reflexivity. f_equal. lia.
Qed.

(** One step of the loop over the cards adds the rank of the card and
    counts it when it is an ace. *)
Lemma addCard_rank (t : BlackjackPage.Total) (aces : nat) (c : BlackjackPage.Card) :
  BlackjackPage.addCard (t, aces) c
  = (BlackjackPage.plus t (rank c), (aces + if isAce c then 1 else 0)%nat).
Proof.
  unfold BlackjackPage.addCard, rank, isAce. simpl.
  destruct (String.eqb_spec (BlackjackPage.value c) "KING") as [->|_]; simpl;
    [rewrite Nat.add_0_r; reflexivity|].
  destruct (String.eqb_spec (BlackjackPage.value c) "QUEEN") as [->|_]; simpl;
    [rewrite Nat.add_0_r; reflexivity|].
  destruct (String.eqb_spec (BlackjackPage.value c) "JACK") as [->|_]; simpl;
    [rewrite Nat.add_0_r; reflexivity|].
  destruct (BlackjackPage.value c =? "ACE")%string.
  - rewrite Nat.add_1_r. reflexivity.
  - rewrite Nat.add_0_r. reflexivity.
Qed.

Lemma fold_addCard (cards : list BlackjackPage.Card) :
  forall (t : BlackjackPage.Total) (aces : nat),
    fold_left BlackjackPage.addCard cards (t, aces)
    = (BlackjackPage.plus t (rankSum cards), (aces + aceCount cards)%nat).
Proof.
  induction cards as [|c cards IH]; intros t aces.
  - simpl. unfold aceCount. simpl. rewrite Nat.add_0_r.
    destruct t; simpl; [rewrite Z.add_0_r|]; reflexivity.
  - cbn [fold_left]. rewrite addCard_rank, IH.
    cbn [rankSum fold_right]. fold (rankSum cards).
    rewrite plus_assoc_total. f_equal.
    unfold aceCount. cbn [filter]. destruct (isAce c); simpl; lia.
Qed.

(** The loop that demotes aces stops after [acesDemoted] rounds. *)
Lemma demote_closed (aces : nat) :
  forall t : Z,
    BlackjackPage.demote (Some t) aces = Some (t - 10 * acesDemoted t aces).
Proof.
  unfold acesDemoted.
  induction aces as [|k IH]; intros t.
  - cbn [BlackjackPage.demote Z.of_nat]. f_equal.
    rewrite Z.min_l by apply Z.le_max_l. lia.
  - cbn [BlackjackPage.demote BlackjackPage.gtTotal BlackjackPage.plus].
    unfold BlackjackPage.BLACKJACK.
    destruct (Z.ltb_spec 21 t) as [Hgt|Hle].
    + rewrite IH. f_equal. rewrite Nat2Z.inj_succ.
      Z.div_mod_to_equations. lia.
    + f_equal. Z.div_mod_to_equations. lia.
Qed.

Lemma demote_nan (aces : nat) : BlackjackPage.demote None aces = None.
Proof. destruct aces; reflexivity. Qed.

(** [acesDemoted] is the number of rounds of "subtract 10 per ace while
    the total exceeds 21": at most the number of aces, stopping at the
    first total that does not exceed 21. *)
Lemma acesDemoted_least (t : Z) (aces : nat) :
  let k := acesDemoted t aces in
  0 <= k <= Z.of_nat aces /\
  (t - 10 * k <= 21 \/ k = Z.of_nat aces) /\
  (forall j, 0 <= j < k -> 21 < t - 10 * j).
Proof.
  unfold acesDemoted. cbv zeta. repeat split.
  - lia.
  - lia.
  - Z.div_mod_to_equations. lia.
  - intros j Hj. Z.div_mod_to_equations. lia.
Qed.

(** Two aces and two tens: both aces are demoted, and the hand is bust. *)
Example two_aces_two_tens :
  BlackjackPage.getHandValue [card "ACE"; card "ACE"; card "10"; card "10"] = Some 22.
Proof. reflexivity. Qed.

(** ** The route that sets the balance *)



(** [settle] reaches the server only through the update-balance route. *)
Lemma settle_server (StringToNumber : string -> float) (dh : list BlackjackPage.Card)
  (p : BlackjackPage.Page) (w : World) :
  let totalWinnings :=
    BlackjackPage.settleHands p (BlackjackPage.getHandValue dh) O
      (BlackjackPage.playerHands p) 0%float in
  snd (BlackjackPage.settle StringToNumber dh (p, w))
  = snd (Controller.updateBalance
           (newBalanceRequest
              (Js.jsonNumber (BlackjackPage.userBalance p + totalWinnings)%float))
           w).
Proof.
  cbv zeta.
  unfold BlackjackPage.settle, BlackjackPage.updateUserBalance, BlackjackPage.fetch.
  cbn [fst snd BlackjackPage.updateBalanceRoute].
  change (Controller.dispatch StringToNumber POST "/api/users/updateBalance")
    with (Some Controller.updateBalance).
  unfold BlackjackPage.newBalanceBody, newBalanceRequest.
  destruct (Controller.updateBalance _ w) as [[res|m] w1]; cbn [snd].
  - destruct (Js.statusOk (statusNumber (statusCode res))); reflexivity.
  - reflexivity.
Qed.

(** * Further properties of the code *)

(** ** The users table *)

Lemma map_update_identity (f : User -> User) (us : list User) :
  (forall u, identity (f u) = identity u) ->
  map identity (map f us) = map identity us.
Proof.
  intros Hf. rewrite map_map. apply map_ext. exact Hf.
Qed.

Lemma rowsOfOthers_updateBalance (userId : Z) (b : float) (us : list User) :
  rowsOfOthers userId
    (map (fun u => if id u =? userId then UserModel.setBalance b u else u) us)
  = rowsOfOthers userId us.
Proof.
  unfold rowsOfOthers. induction us as [|v us IH]; [reflexivity|].
  cbn [map filter]. destruct (id v =? userId) eqn:E.
  - cbn [UserModel.setBalance id]. rewrite E. cbn [negb]. exact IH.
  - rewrite E. cbn [negb]. rewrite IH. reflexivity.
Qed.

Lemma identity_updateBalance (userId : Z) (b : float) (us : list User) :
  map identity
    (map (fun u => if id u =? userId then UserModel.setBalance b u else u) us)
  = map identity us.
Proof.
  apply map_update_identity. intros u. destruct (id u =? userId); reflexivity.
Qed.

(** ** Login *)

Lemma find_email_map (mail : string) (f : User -> User) (us : list User) :
  (forall u, email (f u) = email u) ->
  find (fun u => (email u =? mail)%string) (map f us)
  = option_map f (find (fun u => (email u =? mail)%string) us).
Proof.
  intros Hf. induction us as [|v us IH]; [reflexivity|].
  cbn [map find]. rewrite Hf.
  destruct (email v =? mail)%string; [reflexivity|exact IH].
Qed.

(** The run of [login], by cases. *)
Lemma login_run (mail pass : string) (w : World) :
  AuthService.login mail pass w
  = (match find (fun u => (email u =? mail)%string) (users w) with
     | None => Thrown "Invalid credentials"
     | Some user =>
         if (password user =? pass)%string then Returned user
         else Thrown "Invalid credentials"
     end,
     record (SqlSelectByEmail mail) w).
Proof.
  unfold AuthService.login, bind, UserModel.findByEmail. simpl.
  destruct (find (fun u => (email u =? mail)%string) (users w)) as [user|];
    [|reflexivity].
  destruct (password user =? pass)%string; reflexivity.
Qed.

(** [login] only reads.  A user it returns is a row of the table with
    that email and that password; when it fails, the message is "Invalid
    credentials" whether the email is unknown or the password is wrong,
    and the first row with that email, if any, has another password. *)
Theorem login_sound (mail pass : string) (w : World) :
  let run := AuthService.login mail pass w in
  noWrite w (snd run) /\
  (forall u, fst run = Returned u ->
     In u (users w) /\ email u = mail /\ password u = pass) /\
  (forall m, fst run = Thrown m ->
     m = "Invalid credentials" /\
     forall u, find (fun u => (email u =? mail)%string) (users w) = Some u ->
               password u <> pass).
Proof.
  cbv zeta. rewrite login_run. cbn [fst snd].
  split; [|split].
  - unfold noWrite, added. simpl. repeat split.
    exists [SqlSelectByEmail mail]. split; reflexivity.
  - intros u Hu.
    destruct (find (fun u => (email u =? mail)%string) (users w)) as [user|] eqn:Hf;
      [|discriminate].
    destruct (String.eqb_spec (password user) pass) as [Hp|Hp]; [|discriminate].
    injection Hu as <-.
    apply find_some in Hf. destruct Hf as [Hin He].
    apply String.eqb_eq in He. auto.
  - intros m Hm.
    destruct (find (fun u => (email u =? mail)%string) (users w)) as [user|] eqn:Hf.
    + destruct (String.eqb_spec (password user) pass) as [Hp|Hp]; [discriminate|].
      injection Hm as <-. split; [reflexivity|].
      intros u Hu. injection Hu as <-. exact Hp.
    + injection Hm as <-. split; [reflexivity|]. intros u Hu. discriminate.
Qed.

Lemma login_sound_witness :
  In player (users (casino None 0)) /\
  email player = "player@example.com" /\ password player = "secret1".
Proof.
  apply (proj1 (proj2 (login_sound "player@example.com" "secret1" (casino None 0)))
           player).
  reflexivity.
Defined.

(** After [updatePassword] succeeds for a user that [login] finds by
    email, [login] with the new password returns that user, and [login]
    with the old password fails when the two differ. *)
Theorem password_change_then_login (userId : Z) (currentPassword newPassword : string)
  (w w' : World) (user : User) :
  find (fun u => id u =? userId) (users w) = Some user ->
  find (fun u => (email u =? email user)%string) (users w) = Some user ->
  AuthService.updatePassword userId currentPassword newPassword w = (Returned tt, w') ->
  fst (AuthService.login (email user) newPassword w')
  = Returned (UserModel.setPassword newPassword user) /\
  (currentPassword <> newPassword ->
   fst (AuthService.login (email user) currentPassword w')
   = Thrown "Invalid credentials").
Proof.
  intros Hid Hmail Hrun.
  rewrite updatePassword_run in Hrun. cbv zeta in Hrun. rewrite Hid in Hrun.
  destruct (negb (password user =? currentPassword)%string); [discriminate|].
  destruct (Z.of_nat (String.length newPassword) <? 6); [discriminate|].
  unfold UserModel.updatePassword in Hrun. injection Hrun as <-.
  assert (Hfind : find (fun u => (email u =? email user)%string)
                    (map (fun u => if id u =? userId
                                   then UserModel.setPassword newPassword u else u)
                       (users w))
                  = Some (UserModel.setPassword newPassword user)).
  { rewrite find_email_map by (intros u; destruct (id u =? userId); reflexivity).
    rewrite Hmail. cbn [option_map].
    apply find_some in Hid. destruct Hid as [_ Hid]. rewrite Hid. reflexivity. }
  rewrite !login_run. cbn [fst users record withUsers]. rewrite Hfind.
  cbn [UserModel.setPassword password]. rewrite String.eqb_refl.
  split; [reflexivity|].
  intros Hne. destruct (String.eqb_spec newPassword currentPassword); congruence.
Qed.

Lemma password_change_then_login_witness :
  fst (AuthService.login "player@example.com" "abcdef"
         (snd (AuthService.updatePassword 1 "secret1" "abcdef" (casino loggedIn 0))))
  = Returned (UserModel.setPassword "abcdef" player) /\
  ("secret1" <> "abcdef" ->
   fst (AuthService.login "player@example.com" "secret1"
          (snd (AuthService.updatePassword 1 "secret1" "abcdef" (casino loggedIn 0))))
   = Thrown "Invalid credentials").
Proof.
  apply (password_change_then_login 1 "secret1" "abcdef" (casino loggedIn 0)
           (snd (AuthService.updatePassword 1 "secret1" "abcdef" (casino loggedIn 0)))
           player); reflexivity.
Defined.

(** ** More on the settlement of bets *)

(** A settled bet, coin flip or spin, changes the balance of the bettor
    and nothing else: the rows of the other users are kept, and so are
    the username, email and password of every row. *)
Theorem settlement_touches_only_the_bettor (StringToNumber : string -> float)
  (userId : Z) (amount : JsValue) (w w' : World) :
  (forall guess res,
      GameService.playCoinFlip userId guess amount w = (Returned res, w') ->
      rowsOfOthers userId (users w') = rowsOfOthers userId (users w) /\
      map identity (users w') = map identity (users w)) /\
  (forall betType res,
      GameService.playRoulette StringToNumber userId betType amount w
        = (Returned res, w') ->
      rowsOfOthers userId (users w') = rowsOfOthers userId (users w) /\
      map identity (users w') = map identity (users w)).
Proof.
  split.
  - intros guess res H.
    destruct (playCoinFlip_returned _ _ _ _ _ _ H)
      as (a & user & _ & _ & _ & _ & _ & _ & Hu & _).
    rewrite Hu. split;
      [apply rowsOfOthers_updateBalance|apply identity_updateBalance].
  - intros betType res H.
    destruct (playRoulette_returned _ _ _ _ _ _ _ H)
      as (user & n & pocket & _ & _ & _ & _ & _ & Hu & _).
    rewrite Hu. split;
      [apply rowsOfOthers_updateBalance|apply identity_updateBalance].
Qed.

Lemma settlement_touches_only_the_bettor_witness :
  (rowsOfOthers 1 (users (snd (GameService.playCoinFlip 1 "heads" (JsNumber 10)
                                 (casino loggedIn 0.3))))
   = rowsOfOthers 1 (users (casino loggedIn 0.3))) /\
  (map identity (users (snd (GameService.playRoulette noStrings 1 "red" (JsNumber 10)
                               (casino loggedIn 0.3))))
   = map identity (users (casino loggedIn 0.3))).
Proof.
  split.
  - apply (proj1 (settlement_touches_only_the_bettor noStrings 1 (JsNumber 10)
                    (casino loggedIn 0.3) _)
             "heads" (GameService.mkCoinFlipResult "heads" true 19.5 109.5)).
    vm_compute. reflexivity.
  - apply (proj2 (settlement_touches_only_the_bettor noStrings 1 (JsNumber 10)
                    (casino loggedIn 0.3) _)
             "red" (GameService.mkRouletteResult 11 "black" false 0 90)).
    vm_compute. reflexivity.
Defined.

(** A settled bet reads the bettor's row once, draws from the random
    source exactly once and writes exactly once, in that order; the value
    written is the balance it returns. *)
Theorem settlement_one_draw_one_write (StringToNumber : string -> float)
  (userId : Z) (amount : JsValue) (w w' : World) :
  (forall guess res,
      GameService.playCoinFlip userId guess amount w = (Returned res, w') ->
      draws w' = S (draws w) /\
      added w w' [SqlSelectById userId; MathRandom;
                  SqlUpdateBalance userId (GameService.cfNewBalance res)]) /\
  (forall betType res,
      GameService.playRoulette StringToNumber userId betType amount w
        = (Returned res, w') ->
      draws w' = S (draws w) /\
      added w w' [SqlSelectById userId; MathRandom;
                  SqlUpdateBalance userId (GameService.newBalance res)]).
Proof.
  split.
  - intros guess res H.
    destruct (playCoinFlip_returned _ _ _ _ _ _ H)
      as (a & user & _ & _ & _ & _ & _ & -> & _ & Hd & Hj).
    split; [exact Hd|exact Hj].
  - intros betType res H.
    destruct (playRoulette_returned _ _ _ _ _ _ _ H)
      as (user & n & pocket & _ & _ & _ & _ & -> & _ & Hd & Hj).
    split; [exact Hd|exact Hj].
Qed.

Lemma settlement_one_draw_one_write_witness :
  draws (snd (GameService.playCoinFlip 1 "heads" (JsNumber 10) (casino loggedIn 0.3)))
  = S (draws (casino loggedIn 0.3)) /\
  added (casino loggedIn 0.3)
    (snd (GameService.playRoulette noStrings 1 "red" (JsNumber 10) (casino loggedIn 0.3)))
    [SqlSelectById 1; MathRandom; SqlUpdateBalance 1 90].
Proof.
  split.
  - apply (proj1 (settlement_one_draw_one_write noStrings 1 (JsNumber 10)
                    (casino loggedIn 0.3) _)
             "heads" (GameService.mkCoinFlipResult "heads" true 19.5 109.5)).
    vm_compute. reflexivity.
  - apply (proj2 (settlement_one_draw_one_write noStrings 1 (JsNumber 10)
                    (casino loggedIn 0.3) _)
             "red" (GameService.mkRouletteResult 11 "black" false 0 90)).
    vm_compute. reflexivity.
Defined.

(** For an id that no row has, both resolvers throw "User not found"
    after the one query: nothing is drawn and nothing is written.  The
    coin flip gets that far only with a valid guess and amount. *)
Theorem unknown_user_is_rejected (StringToNumber : string -> float)
  (userId : Z) (w : World) :
  find (fun u => id u =? userId) (users w) = None ->
  (forall guess a, guess <> "" -> Js.le a 0 = false ->
     GameService.playCoinFlip userId guess (JsNumber a) w
     = (Thrown "User not found", record (SqlSelectById userId) w)) /\
  (forall betType amount,
     GameService.playRoulette StringToNumber userId betType amount w
     = (Thrown "User not found", record (SqlSelectById userId) w)).
Proof.
  intros Hf. split.
  - intros guess a Hg Ha. unfold GameService.playCoinFlip.
    assert (Ht : Js.truthy (JsString guess) = true).
    { simpl. destruct (String.eqb_spec guess ""); [contradiction|reflexivity]. }
    rewrite Ht, Ha. run. rewrite Hf. reflexivity.
  - intros betType amount. unfold GameService.playRoulette. run.
    rewrite Hf. reflexivity.
Qed.

Lemma unknown_user_is_rejected_witness :
  GameService.playCoinFlip 2 "heads" (JsNumber 10) (casino loggedIn 0.3)
  = (Thrown "User not found", record (SqlSelectById 2) (casino loggedIn 0.3)) /\
  GameService.playRoulette noStrings 2 "red" (JsNumber 10) (casino loggedIn 0.3)
  = (Thrown "User not found", record (SqlSelectById 2) (casino loggedIn 0.3)).
Proof.
  destruct (unknown_user_is_rejected noStrings 2 (casino loggedIn 0.3) eq_refl)
    as [Hc Hr].
  split.
  - apply Hc; [discriminate|reflexivity].
  - apply Hr.
Defined.

(** [playCoinFlip] tests its input before it looks the user up: an empty
    guess, an amount that is not a number, or a number that is zero or
    negative, is refused with "Invalid bet input" and no effect at all,
    also for an unknown user. *)
Theorem coinflip_invalid_input_has_no_effect (userId : Z) (guess : string)
  (amount : JsValue) (w : World) :
  guess = "" \/ Js.typeof amount <> "number" \/
  (exists a, amount = JsNumber a /\ Js.le a 0 = true) ->
  GameService.playCoinFlip userId guess amount w = (Thrown "Invalid bet input", w).
Proof.
  intros [Hg|[Ht|(a & -> & Ha)]]; unfold GameService.playCoinFlip.
  - subst guess. destruct amount; reflexivity.
  - destruct amount; try reflexivity. simpl in Ht. contradiction.
  - rewrite Ha, orb_true_r. reflexivity.
Qed.

Lemma coinflip_invalid_input_has_no_effect_witness :
  GameService.playCoinFlip 2 "heads" (JsNumber 0) (casino loggedIn 0.3)
  = (Thrown "Invalid bet input", casino loggedIn 0.3).
Proof.
  apply coinflip_invalid_input_has_no_effect.
  right. right. exists 0%float. split; reflexivity.
Defined.

(** The service compares the guess with the outcome as it is: a guess
    that is neither "heads" nor "tails" is not refused, and every flip it
    settles is lost, the stake being deducted. *)
Theorem unrecognised_guess_always_loses (userId : Z) (guess : string)
  (amount : JsValue) (w w' : World) (res : GameService.CoinFlipResult) :
  guess <> "heads" -> guess <> "tails" ->
  GameService.playCoinFlip userId guess amount w = (Returned res, w') ->
  GameService.cfWin res = false /\
  GameService.cfPayout res = 0%float /\
  exists a b,
    amount = JsNumber a /\ balanceOf userId w = Some b /\
    GameService.cfNewBalance res = (b - a + 0)%float.
Proof.
  intros Hh Ht H.
  destruct (playCoinFlip_returned _ _ _ _ _ _ H)
    as (a & user & -> & _ & _ & Hf & _ & -> & _).
  assert (Hw : (guess =? (if Js.lt (random w (draws w)) 0.5
                          then "heads" else "tails"))%string = false).
  { destruct (Js.lt (random w (draws w)) 0.5);
      apply String.eqb_neq; assumption. }
  cbn [GameService.cfWin GameService.cfPayout GameService.cfNewBalance].
  rewrite Hw. repeat split.
  exists a, (balance user). unfold balanceOf. rewrite Hf. repeat split.
Qed.

Lemma unrecognised_guess_always_loses_witness :
  false = false /\ 0%float = 0%float /\
  exists a b,
    JsNumber 10 = JsNumber a /\ balanceOf 1 (casino loggedIn 0.3) = Some b /\
    90%float = (b - a + 0)%float.
Proof.
  apply (unrecognised_guess_always_loses 1 "Heads" (JsNumber 10) (casino loggedIn 0.3)
           (snd (GameService.playCoinFlip 1 "Heads" (JsNumber 10) (casino loggedIn 0.3)))
           (GameService.mkCoinFlipResult "heads" false 0 90)).
  - discriminate.
  - discriminate.
  - vm_compute. reflexivity.
Defined.

(** ** The wheel *)

(** The lookup of a drawn number in [ROULETTE_NUMBERS] succeeds exactly
    for 0 to 36, and the pocket found carries that number: no draw in
    that range makes [playRoulette] throw "Invalid spin result". *)
Theorem getResultDetails_total (n : Z) :
  (0 <= n <= 36 <->
   exists pocket, GameService.getResultDetails n = Some pocket) /\
  (forall pocket,
      GameService.getResultDetails n = Some pocket ->
      GameService.number pocket = n).
Proof.
  split; [split|].
  - intros Hn.
    assert (Hk : exists k, n = Z.of_nat k /\ (k <= 36)%nat)
      by (exists (Z.to_nat n); lia).
    destruct Hk as (k & -> & Hk).
    do 37 (destruct k as [|k]; [eexists; reflexivity|]). lia.
  - intros [pocket Hp]. apply (getResultDetails_some _ _ Hp).
  - intros pocket Hp. apply (getResultDetails_some _ _ Hp).
Qed.

Lemma getResultDetails_total_witness :
  GameService.number (GameService.mkPocket 17 "black") = 17.
Proof.
  apply (proj2 (getResultDetails_total 17) (GameService.mkPocket 17 "black")).
  reflexivity.
Defined.




(** ** Bounds of the bet *)


Lemma nan_not_below (x y : float) : Js.isNaN x = true -> Js.lt x y = false.
Proof.
  unfold Js.isNaN, PrimFloat.is_nan, Js.lt.
  rewrite FloatAxioms.eqb_spec, FloatAxioms.ltb_spec. unfold SFeqb, SFltb.
  destruct (Prim2SF x) as [s|s| |s m e]; try destruct s; simpl;
    rewrite ?Z.compare_refl, ?Pos.compare_cont_refl; simpl;
    try discriminate; reflexivity.
Qed.



Lemma insufficient_funds_before_draw_witness :
  GameService.playCoinFlip 1 "heads" (JsNumber 101) (casino loggedIn 0.3)
  = (Thrown "Insufficient funds", record (SqlSelectById 1) (casino loggedIn 0.3)) /\
  GameService.playRoulette noStrings 1 "red" (JsNumber 101) (casino loggedIn 0.3)
  = (Thrown "Insufficient funds", record (SqlSelectById 1) (casino loggedIn 0.3)).
Proof.
  destruct (insufficient_funds_before_draw noStrings 1 101 player (casino loggedIn 0.3)
              eq_refl eq_refl) as [Hc Hr].
  split.
  - apply Hc; [discriminate|reflexivity].
  - apply Hr.
Defined.

(** ** More on the routes *)

(** After [logout], whatever the session held, the session has no user:
    the six guarded routes answer 401 and do nothing.  The users table is
    not touched by the logout. *)
Theorem logout_closes_the_session (StringToNumber : string -> float)
  (req req' : Request) (w : World) :
  let w1 := snd (Controller.logout req w) in
  fst (Controller.logout req w)
  = Returned (mkResponse OK "Logged out successfully" None) /\
  users w1 = users w /\ sessionUser w1 = None /\
  (forall m path,
      In (m, path) ((POST, "/api/users/updateBalance") :: idGuardedRoutes) ->
      exists handler message,
        Controller.dispatch StringToNumber m path = Some handler /\
        handler req' w1 = (Returned (unauthorized message), w1)).
Proof.
  cbv zeta. unfold Controller.logout, AuthService.logout, tryCatch, bind, ret.
  cbn [fst snd users sessionUser record withSessionUser].
  repeat split.
  intros m path Hin. simpl in Hin.
  destruct Hin as [H|[H|[H|[H|[H|[H|[]]]]]]]; inversion H; subst; clear H.
  - exists Controller.updateBalance, "Not logged in". split; reflexivity.
  - exists Controller.profile, "Not logged in". split; reflexivity.
  - exists (Controller.playRoulette StringToNumber), "Not logged in".
    split; reflexivity.
  - exists Controller.playCoinFlip, "Not logged in". split; reflexivity.
  - exists Controller.setBalance, "Not logged in". split; reflexivity.
  - exists Controller.updatePassword, "Not authenticated". split; reflexivity.
Qed.

Lemma logout_closes_the_session_witness :
  exists handler message,
    Controller.dispatch noStrings POST "/play/roulette" = Some handler /\
    handler (mkRequest BlackjackPage.emptyBody)
      (snd (Controller.logout (mkRequest BlackjackPage.emptyBody) (casino loggedIn 0)))
    = (Returned (unauthorized message),
       snd (Controller.logout (mkRequest BlackjackPage.emptyBody) (casino loggedIn 0))).
Proof.
  apply (proj2 (proj2 (proj2 (logout_closes_the_session noStrings
                                (mkRequest BlackjackPage.emptyBody)
                                (mkRequest BlackjackPage.emptyBody)
                                (casino loggedIn 0))))).
  simpl. right. right. left. reflexivity.
Defined.




(** GET /profile only reads.  For a logged-in user it answers 200 with
    the stored row of that user, the stored password included, and 404
    "User not found" when no row has the session's id. *)
Theorem profile_returns_the_stored_row (req : Request) (userId : Z) (w : World) :
  authenticatedId (sessionUser w) = Some userId ->
  noWrite w (snd (Controller.profile req w)) /\
  match find (fun u => id u =? userId) (users w) with
  | Some user =>
      fst (Controller.profile req w)
      = Returned (mkResponse OK "Profile fetched" (Some (ProfilePayload user))) /\
      passwordOf userId w = Some (password user)
  | None =>
      fst (Controller.profile req w)
      = Returned (mkResponse NotFound "User not found" None)
  end.
Proof.
  intros Hauth.
  unfold Controller.profile, AuthService.getProfile, passwordOf. run.
  rewrite Hauth. simpl.
  destruct (find (fun u => id u =? userId) (users w)) as [user|]; simpl.
  - split; [apply noWrite_select|]. split; reflexivity.
  - split; [apply noWrite_select|]. reflexivity.
Qed.

Lemma profile_returns_the_stored_row_witness :
  fst (Controller.profile (mkRequest BlackjackPage.emptyBody) (casino loggedIn 0))
  = Returned (mkResponse OK "Profile fetched" (Some (ProfilePayload player))) /\
  passwordOf 1 (casino loggedIn 0) = Some "secret1".
Proof.
  pose proof (profile_returns_the_stored_row (mkRequest BlackjackPage.emptyBody) 1
                (casino loggedIn 0) eq_refl) as [_ H].
  exact H.
Defined.

(** ** More on the blackjack page *)


Lemma getHandValue_closed (cards : list BlackjackPage.Card) :
  BlackjackPage.getHandValue cards = handValue cards.
Proof.
  unfold BlackjackPage.getHandValue, handValue.
  rewrite fold_addCard. cbn [Nat.add].
  destruct (rankSum cards) as [t|]; cbn [BlackjackPage.plus option_map].
  - rewrite Z.add_0_l. apply demote_closed.
  - apply demote_nan.
Qed.

Lemma rankSum_permutation (cards cards' : list BlackjackPage.Card) :
  Permutation cards cards' -> rankSum cards = rankSum cards'.
Proof.
  induction 1 as [|x l l' _ IH|x y l|l l' l'' _ IH1 _ IH2].
  - reflexivity.
  - cbn [rankSum fold_right]. fold (rankSum l) (rankSum l'). rewrite IH. reflexivity.
  - cbn [rankSum fold_right]. fold (rankSum l).
    destruct (rankSum l), (rank x), (rank y); simpl; try reflexivity.
    f_equal. lia.
  - congruence.
Qed.

Lemma aceCount_permutation (cards cards' : list BlackjackPage.Card) :
  Permutation cards cards' -> aceCount cards = aceCount cards'.
Proof.
  unfold aceCount.
  induction 1 as [|x l l' _ IH|x y l|l l' l'' _ IH1 _ IH2].
  - reflexivity.
  - cbn [filter]. destruct (isAce x); simpl; rewrite IH; reflexivity.
  - cbn [filter]. destruct (isAce x), (isAce y); reflexivity.
  - congruence.
Qed.

(** The value of a hand does not depend on the order in which its cards
    were dealt. *)
Theorem getHandValue_permutation (cards cards' : list BlackjackPage.Card) :
  Permutation cards cards' ->
  BlackjackPage.getHandValue cards = BlackjackPage.getHandValue cards'.
Proof.
  intros Hp. rewrite !getHandValue_closed. unfold handValue.
  rewrite (rankSum_permutation _ _ Hp), (aceCount_permutation _ _ Hp).
  reflexivity.
Qed.

Lemma getHandValue_permutation_witness :
  BlackjackPage.getHandValue [card "9"; card "ACE"; card "ACE"]
  = BlackjackPage.getHandValue [card "ACE"; card "ACE"; card "9"].
Proof.
  apply getHandValue_permutation.
  apply perm_trans with (l' := [card "ACE"; card "9"; card "ACE"]).
  - apply perm_swap.
  - apply perm_skip. apply perm_swap.
Defined.

(** A hand is bust exactly when it is bust with every ace counted as 1;
    and when its ranks sum to [t] with [n] aces, its value is one of the
    totals [t - 10 k], [k] from 0 to [n], namely the greatest of them
    that does not exceed 21 when there is one. *)
Theorem getHandValue_best_total (cards : list BlackjackPage.Card) :
  BlackjackPage.gtTotal (BlackjackPage.getHandValue cards) (Some BlackjackPage.BLACKJACK)
  = BlackjackPage.gtTotal (hardTotal cards) (Some BlackjackPage.BLACKJACK) /\
  (forall t,
      rankSum cards = Some t ->
      exists k,
        0 <= k <= Z.of_nat (aceCount cards) /\
        BlackjackPage.getHandValue cards = Some (t - 10 * k) /\
        (forall j, 0 <= j <= Z.of_nat (aceCount cards) ->
                   t - 10 * j <= 21 -> t - 10 * j <= t - 10 * k)).
Proof.
  rewrite getHandValue_closed. unfold handValue, hardTotal, acesDemoted.
  split.
  - destruct (rankSum cards) as [t|]; [|reflexivity].
    cbn [option_map BlackjackPage.gtTotal]. unfold BlackjackPage.BLACKJACK.
    destruct (Z.ltb_spec 21 (t - 10 * Z.of_nat (aceCount cards)));
      destruct (Z.ltb_spec 21
                  (t - 10 * Z.min (Z.of_nat (aceCount cards))
                                  (Z.max 0 ((t - 12) / 10))));
      try reflexivity; exfalso; Z.div_mod_to_equations; lia.
  - intros t Ht. rewrite Ht. cbn [option_map].
    exists (Z.min (Z.of_nat (aceCount cards)) (Z.max 0 ((t - 12) / 10))).
    split; [lia|]. split; [reflexivity|].
    intros j Hj Hle. Z.div_mod_to_equations. lia.
Qed.

Lemma getHandValue_best_total_witness :
  exists k,
    0 <= k <= Z.of_nat (aceCount [card "ACE"; card "ACE"; card "9"]) /\
    BlackjackPage.getHandValue [card "ACE"; card "ACE"; card "9"] = Some (31 - 10 * k) /\
    (forall j, 0 <= j <= Z.of_nat (aceCount [card "ACE"; card "ACE"; card "9"]) ->
               31 - 10 * j <= 21 -> 31 - 10 * j <= 31 - 10 * k).
Proof.
  apply (proj2 (getHandValue_best_total [card "ACE"; card "ACE"; card "9"]) 31).
  reflexivity.
Defined.

(** The dealer keeps the cards held, takes the cards of the supply in
    order and one at a time, and stops at the first total that is not
    below 17 — or when the supply ends: before each card drawn the total
    was below 17. *)
Theorem dealer_stands_on_17 (supply : list BlackjackPage.Card) :
  forall dh : list BlackjackPage.Card,
  exists drawn rest,
    supply = (drawn ++ rest)%list /\
    BlackjackPage.dealerDraws dh supply = (dh ++ drawn)%list /\
    (BlackjackPage.ltTotal (BlackjackPage.getHandValue (dh ++ drawn))
       (Some BlackjackPage.DEALER_STAND) = false \/ rest = []) /\
    (forall before c after,
        drawn = (before ++ c :: after)%list ->
        BlackjackPage.ltTotal (BlackjackPage.getHandValue (dh ++ before))
          (Some BlackjackPage.DEALER_STAND) = true).
Proof.
  induction supply as [|c supply IH]; intros dh.
  - exists [], []. cbn [app]. rewrite !app_nil_r.
    split; [reflexivity|]. split; [reflexivity|]. split; [right; reflexivity|].
    intros before c after H. destruct before; discriminate.
  - cbn [BlackjackPage.dealerDraws].
    destruct (BlackjackPage.ltTotal (BlackjackPage.getHandValue dh)
                (Some BlackjackPage.DEALER_STAND)) eqn:Hlt.
    + destruct (IH (dh ++ [c])%list) as (drawn & rest & -> & Hd & Hstop & Hpre).
      exists (c :: drawn), rest.
      rewrite <- app_assoc in Hd, Hstop. cbn [app] in Hd, Hstop.
      split; [reflexivity|]. split; [exact Hd|]. split; [exact Hstop|].
      intros before c' after H. destruct before as [|b before].
      * rewrite app_nil_r. exact Hlt.
      * cbn [app] in H. injection H as <- H.
        specialize (Hpre before c' after H).
        rewrite <- app_assoc in Hpre. exact Hpre.
    + exists [], (c :: supply). cbn [app]. rewrite !app_nil_r.
      split; [reflexivity|]. split; [reflexivity|]. split; [left; exact Hlt|].
      intros before c' after H. destruct before; discriminate.
Qed.

Lemma dealer_stands_on_17_witness :
  exists drawn rest,
    [card "5"; card "KING"; card "2"] = (drawn ++ rest)%list /\
    BlackjackPage.dealerDraws [card "10"; card "2"] [card "5"; card "KING"; card "2"]
    = ([card "10"; card "2"] ++ drawn)%list /\
    (BlackjackPage.ltTotal
       (BlackjackPage.getHandValue ([card "10"; card "2"] ++ drawn))
       (Some BlackjackPage.DEALER_STAND) = false \/ rest = []) /\
    (forall before c after,
        drawn = (before ++ c :: after)%list ->
        BlackjackPage.ltTotal
          (BlackjackPage.getHandValue ([card "10"; card "2"] ++ before))
          (Some BlackjackPage.DEALER_STAND) = true).
Proof.
  exact (dealer_stands_on_17 [card "5"; card "KING"; card "2"] [card "10"; card "2"]).
Defined.

(** The dealer draws 5 on 12 and stands on 17, leaving the rest of the
    supply. *)
Example dealer_draws_to_17 :
  BlackjackPage.dealerDraws [card "10"; card "2"] [card "5"; card "KING"; card "2"]
  = [card "10"; card "2"; card "5"].
Proof. reflexivity. Qed.

Lemma bust_is_not_blackjack (v : BlackjackPage.Total) :
  BlackjackPage.gtTotal v (Some BlackjackPage.BLACKJACK) = true ->
  BlackjackPage.eqTotal v (Some BlackjackPage.BLACKJACK) = false.
Proof.
  destruct v as [t|]; simpl; [|discriminate].
  unfold BlackjackPage.BLACKJACK. intros H. apply Z.ltb_lt in H.
  apply Z.eqb_neq. lia.
Qed.

Lemma settleHands_all_bust (p : BlackjackPage.Page) (dv : BlackjackPage.Total)
  (hands : list (list BlackjackPage.Card)) :
  BlackjackPage.allBusted hands = true ->
  forall (i : nat) (totalWinnings : float),
    BlackjackPage.settleHands p dv i hands totalWinnings = totalWinnings.
Proof.
  unfold BlackjackPage.allBusted.
  induction hands as [|ph hands IH]; intros Hb i tw; [reflexivity|].
  cbn [forallb] in Hb. apply andb_prop in Hb. destruct Hb as [Hph Hrest].
  cbn [BlackjackPage.settleHands]. rewrite (IH Hrest).
  unfold BlackjackPage.settleHand.
  rewrite (bust_is_not_blackjack _ Hph), Hph.
  rewrite !andb_false_r. reflexivity.
Qed.

(** When every hand of the player is bust the dealer draws no card, no
    hand is paid, and the page posts [balance + 0] to the update-balance
    route. *)
Theorem all_bust_round (StringToNumber : string -> float)
  (p : BlackjackPage.Page) (dealerHand supply : list BlackjackPage.Card)
  (w : World) :
  BlackjackPage.allBusted (BlackjackPage.playerHands p) = true ->
  BlackjackPage.dealerFinalHand p dealerHand supply = dealerHand /\
  (forall dv, BlackjackPage.settleHands p dv O (BlackjackPage.playerHands p) 0%float
              = 0%float) /\
  snd (BlackjackPage.dealerPlay StringToNumber dealerHand supply (p, w))
  = snd (Controller.updateBalance
           (newBalanceRequest (Js.jsonNumber (BlackjackPage.userBalance p + 0)%float))
           w).
Proof.
  intros Hb. split; [|split].
  - unfold BlackjackPage.dealerFinalHand. rewrite Hb. reflexivity.
  - intros dv. apply settleHands_all_bust. exact Hb.
  - unfold BlackjackPage.dealerPlay. rewrite settle_server. cbv zeta.
    rewrite settleHands_all_bust by exact Hb. reflexivity.
Qed.

Lemma all_bust_round_witness :
  let p := BlackjackPage.mkPage 90 [[card "10"; card "9"; card "5"]] [10%float]
             false false in
  BlackjackPage.dealerFinalHand p [card "10"; card "2"] [card "5"] = [card "10"; card "2"] /\
  journal (snd (BlackjackPage.dealerPlay noStrings [card "10"; card "2"] [card "5"]
                  (p, casino loggedIn 0)))
  = [SqlUpdateBalance 1 90].
Proof.
  cbv zeta.
  destruct (all_bust_round noStrings
              (BlackjackPage.mkPage 90 [[card "10"; card "9"; card "5"]] [10%float]
                 false false)
              [card "10"; card "2"] [card "5"] (casino loggedIn 0) eq_refl)
    as (Hd & _ & Hp).
  split; [exact Hd|]. rewrite Hp. vm_compute. reflexivity.
Defined.

(** * Properties on the schema of the repository *)

Ltac live :=
  unfold Live.bind, Live.ret, Live.throw, Live.tryCatch, Live.UserModel.getById,
    Live.UserModel.updateBalance, Live.Math_random, Live.Session_get_user in *;
  cbn [fst snd] in *.

(** What a spin that settles has computed, read off the code. *)
Lemma live_playRoulette_returned (userId : Z) (betType amount : JsValue)
  (w w' : Live.Site) (res : Live.GameService.RouletteResult) :
  Live.GameService.playRoulette userId betType amount w = (Returned res, w') ->
  exists row n pocket stored,
    find (fun r => Live.Db.id r =? userId) (Live.rows w) = Some row /\
    Js.gtValue amount (JsString (Pg.numericOut (Live.Db.balance row))) = false /\
    Js.floor (Live.random w (Live.draws w) * 37)%float = Some n /\
    GameService.getResultDetails n = Some pocket /\
    let text := Pg.numericOut (Live.Db.balance row) in
    let win := fst (Live.GameService.matchBet betType pocket n) in
    let payoutMultiplier := snd (Live.GameService.matchBet betType pocket n) in
    let payout := if win then (Js.toNumber amount * payoutMultiplier)%float else 0%float in
    let newBalance :=
      if win then Live.Str (text ++ Js.numberToString payout)
      else Live.Num (Js.stringToNumber text - Js.toNumber amount)%float in
    res = Live.GameService.mkRouletteResult (GameService.number pocket)
            (GameService.color pocket) win payout newBalance /\
    Pg.numericIn (Live.textOf newBalance) = Pg.Stored stored /\
    Live.rows w' = balanceStored userId stored (Live.rows w) /\
    Live.session w' = Live.session w /\
    Live.draws w' = S (Live.draws w).
Proof.
  unfold Live.GameService.playRoulette, Live.GameService.getRandomResult.
  live.
  destruct (find (fun r => Live.Db.id r =? userId) (Live.rows w)) as [row|] eqn:Hf;
    cbn [option_map]; [|discriminate].
  cbn [Live.present Live.balance].
  destruct (Js.gtValue amount (JsString (Pg.numericOut (Live.Db.balance row)))) eqn:Hb;
    [discriminate|].
  destruct (Js.floor (Live.random w (Live.draws w) * 37)) as [n|] eqn:Hn; [|discriminate].
  destruct (GameService.getResultDetails n) as [pocket|] eqn:Hp; [|discriminate].
  destruct (Live.GameService.matchBet betType pocket n) as [win mult] eqn:Hm.
  cbn [fst snd].
  match goal with
  | |- context [Pg.numericIn ?t] => destruct (Pg.numericIn t) as [stored|m] eqn:Hs
  end; [|discriminate].
  intros H. inversion H; subst; clear H.
  exists row, n, pocket, stored. cbv zeta. rewrite Hm. cbn [fst snd].
  repeat split; auto.
Qed.

(** ** The rules of the roulette *)

(** On the wheel, [number.toString()] is the numeral of the number. *)
Lemma toString_numeral (pocket : GameService.Pocket) (betType : string) :
  In pocket GameService.ROULETTE_NUMBERS ->
  (betType =? Js.toString (GameService.number pocket))%string
  = namesNumber betType (GameService.number pocket).
Proof.
  intros Hin.
  assert (Hall : forallb
            (fun p => let n := GameService.number p in
               (0 <=? n) &&
               match nth_error numerals (Z.to_nat n) with
               | Some numeral => (numeral =? Js.toString n)%string
               | None => false
               end) GameService.ROULETTE_NUMBERS = true)
    by (vm_compute; reflexivity).
  rewrite forallb_forall in Hall. specialize (Hall pocket Hin). cbv zeta in Hall.
  unfold namesNumber.
  destruct (0 <=? GameService.number pocket); [|discriminate].
  destruct (nth_error numerals (Z.to_nat (GameService.number pocket))) as [numeral|];
    [|discriminate].
  cbn [andb] in *. apply String.eqb_eq in Hall. subst numeral. reflexivity.
Qed.

(** The chain of tests of [playRoulette] applies the first rule of the
    specification that matches. *)
Lemma matchBet_payoutRules (betType : string) (pocket : GameService.Pocket) :
  In pocket GameService.ROULETTE_NUMBERS ->
  Live.GameService.matchBet (JsString betType) pocket (GameService.number pocket)
  = firstMatch (payoutRules betType pocket).
Proof.
  intros Hin.
  pose proof (proj1 (Forall_forall _ _) pockets_in_range pocket Hin) as Hr.
  cbv beta in Hr.
  unfold Live.GameService.matchBet, firstMatch, payoutRules, Js.strictEqString.
  rewrite (toString_numeral pocket betType Hin).
  rewrite (rem2_even _ (proj1 Hr)), (rem2_odd _ (proj1 Hr)). cbv zeta. cbn [find fst snd].
  repeat match goal with
         | |- context [if ?c then _ else _] => destruct c; cbn [andb negb]; try reflexivity
         end.
Qed.

(** C5: a spin that settles has drawn a pocket of the wheel, and its
    [win] and [payout] are those of the first rule that the selector
    matches on that pocket, in this order: the numeral of the number drawn
    (multiplier 35), its color (1), "even" on a number that is even and not
    0 (1), "odd" on an odd number (1), "1-12", "13-24" and "25-36" on a
    number of that range (2); a selector that matches no rule loses with
    payout 0, and a win pays [amount * multiplier]. *)
Theorem roulette_payout_rules (userId : Z) (betType : string) (amount : float)
  (w w' : Live.Site) (res : Live.GameService.RouletteResult) :
  Live.GameService.playRoulette userId (JsString betType) (JsNumber amount) w
    = (Returned res, w') ->
  exists pocket,
    In pocket GameService.ROULETTE_NUMBERS /\
    Js.floor (Live.random w (Live.draws w) * 37)%float
    = Some (GameService.number pocket) /\
    Live.GameService.result res = GameService.number pocket /\
    Live.GameService.resultColor res = GameService.color pocket /\
    Live.GameService.win res = fst (firstMatch (payoutRules betType pocket)) /\
    Live.GameService.payout res
    = if Live.GameService.win res
      then (amount * snd (firstMatch (payoutRules betType pocket)))%float
      else 0%float.
Proof.
  intros H.
  destruct (live_playRoulette_returned _ _ _ _ _ _ H)
    as (row & n & pocket & stored & _ & _ & Hn & Hp & -> & _).
  destruct (getResultDetails_some _ _ Hp) as (Hin & <- & Hr).
  exists pocket. cbn [Live.GameService.result Live.GameService.resultColor
                      Live.GameService.win Live.GameService.payout].
  rewrite (matchBet_payoutRules betType pocket Hin).
  repeat split; auto.
Qed.

(** The draw forced to pocket 17, black: a bet of 10 on "17" wins by the
    first rule and pays 10 * 35. *)
Lemma roulette_payout_rules_witness :
  exists pocket,
    In pocket GameService.ROULETTE_NUMBERS /\
    Js.floor (0.47 * 37)%float = Some (GameService.number pocket) /\
    17 = GameService.number pocket /\
    "black" = GameService.color pocket /\
    true = fst (firstMatch (payoutRules "17" pocket)) /\
    350%float = (10 * snd (firstMatch (payoutRules "17" pocket)))%float.
Proof.
  apply (roulette_payout_rules 1 "17" 10 (house loggedIn 10000 0.47)
           (snd (Live.GameService.playRoulette 1 (JsString "17") (JsNumber 10)
                   (house loggedIn 10000 0.47)))
           (Live.GameService.mkRouletteResult 17 "black" true 350
              (Live.Str "100.00350"))).
  vm_compute. reflexivity.
Defined.

(** The three cases of the specification: "red" on a red pocket pays the
    amount once, "17" on 17 pays it 35 times, "1-12" on 0 loses. *)
Example roulette_rules_of_the_specification :
  firstMatch (payoutRules "red" (GameService.mkPocket 32 "red")) = (true, 1%float) /\
  firstMatch (payoutRules "17" (GameService.mkPocket 17 "black")) = (true, 35%float) /\
  firstMatch (payoutRules "1-12" (GameService.mkPocket 0 "green")) = (false, 0%float) /\
  Live.GameService.matchBet (JsString "red") (GameService.mkPocket 32 "red") 32
  = (true, 1%float) /\
  Live.GameService.matchBet (JsString "17") (GameService.mkPocket 17 "black") 17
  = (true, 35%float) /\
  Live.GameService.matchBet (JsString "1-12") (GameService.mkPocket 0 "green") 0
  = (false, 0%float).
Proof. vm_compute. repeat split; reflexivity. Qed.

(** A bet on "black" when 17, black, is drawn wins by the color rule: the
    exact-number rule comes first but does not match. *)
Example roulette_color_after_number :
  fst (Live.GameService.playRoulette 1 (JsString "black") (JsNumber 10)
         (house loggedIn 10000 0.47))
  = Returned (Live.GameService.mkRouletteResult 17 "black" true 10
                (Live.Str "100.0010")).
Proof. vm_compute. reflexivity. Qed.


(** ** The value of a hand of the deck *)

(** On a card of the deck the loop adds what the card counts for. *)
Lemma rank_faceValue (c : BlackjackPage.Card) :
  ofTheDeck c -> rank c = faceValue c.
Proof.
  unfold ofTheDeck, faceValue, rank, faceValues.
  destruct c as [v s]. cbn [BlackjackPage.value find fst snd].
  repeat match goal with
         | |- context [String.eqb ?a v] =>
             destruct (String.eqb_spec a v) as [<-|_]; [intros _; reflexivity|]
         end.
  intros H. exfalso. apply H. reflexivity.
Qed.

Lemma rankSum_points (cards : list BlackjackPage.Card) :
  Forall ofTheDeck cards -> rankSum cards = Some (points cards).
Proof.
  induction 1 as [|c cards Hc _ IH]; [reflexivity|].
  cbn [rankSum points fold_right]. fold (rankSum cards). fold (points cards).
  rewrite IH, (rank_faceValue c Hc).
  destruct (faceValue c) as [v|] eqn:E; [reflexivity|].
  exfalso. apply Hc. exact E.
Qed.

(** C9: on every hand of cards of the deck, [getHandValue] returns the
    sum of what the cards count for -- 10 for KING, QUEEN and JACK, the
    face value for the cards 2 to 10, 11 for an ace -- less 10 for each of
    [k] aces, where [k] is what "subtract 10 per ace while the total
    exceeds 21" comes to: at most the number of aces, stopping as soon as
    the total does not exceed 21, and going on as long as it does. *)
Theorem getHandValue_of_the_deck (cards : list BlackjackPage.Card) :
  Forall ofTheDeck cards ->
  exists k : Z,
    BlackjackPage.getHandValue cards = Some (points cards - 10 * k) /\
    0 <= k <= Z.of_nat (aceCount cards) /\
    (points cards - 10 * k <= 21 \/ k = Z.of_nat (aceCount cards)) /\
    (forall j, 0 <= j < k -> 21 < points cards - 10 * j).
Proof.
  intros Hd. exists (acesDemoted (points cards) (aceCount cards)).
  split.
  - rewrite getHandValue_closed. unfold handValue.
    rewrite (rankSum_points cards Hd). reflexivity.
  - apply acesDemoted_least.
Qed.

(** [ACE, ACE, 9]: the cards count for 31, one ace is demoted and the hand
    is worth 21. *)
Lemma getHandValue_of_the_deck_witness :
  exists k : Z,
    BlackjackPage.getHandValue [card "ACE"; card "ACE"; card "9"]
    = Some (points [card "ACE"; card "ACE"; card "9"] - 10 * k) /\
    0 <= k <= Z.of_nat (aceCount [card "ACE"; card "ACE"; card "9"]) /\
    (points [card "ACE"; card "ACE"; card "9"] - 10 * k <= 21 \/
     k = Z.of_nat (aceCount [card "ACE"; card "ACE"; card "9"])) /\
    (forall j, 0 <= j < k -> 21 < points [card "ACE"; card "ACE"; card "9"] - 10 * j).
Proof.
  apply (getHandValue_of_the_deck [card "ACE"; card "ACE"; card "9"]).
  repeat constructor; discriminate.
Defined.

(** The hands of the specification, and every card of the deck alone. *)
Example hands_of_the_specification :
  BlackjackPage.getHandValue [card "ACE"; card "KING"] = Some 21 /\
  BlackjackPage.getHandValue [card "ACE"; card "ACE"; card "9"] = Some 21 /\
  map (fun v => BlackjackPage.getHandValue [card v])
    ["2"; "3"; "4"; "5"; "6"; "7"; "8"; "9"; "10"; "JACK"; "QUEEN"; "KING"; "ACE"]
  = map Some [2; 3; 4; 5; 6; 7; 8; 9; 10; 10; 10; 10; 11].
Proof. repeat split; reflexivity. Qed.

(** ** Settlement on the schema *)

(** C1: user 1 holds 100.00 and bets 10 on "17"; 17 is drawn, the bet
    wins and pays 350.  The new balance that [playRoulette] returns and
    binds to the [UPDATE] is the text "100.00350", the text of the balance
    followed by the text of the payout; the column reads it as 100.0035
    and keeps 100.00.  The balance before less the bet plus the payout is
    440. *)
Theorem roulette_win_joins_texts :
  Live.GameService.playRoulette 1 (JsString "17") (JsNumber 10)
    (house loggedIn 10000 0.47)
  = (Returned (Live.GameService.mkRouletteResult 17 "black" true 350
                 (Live.Str "100.00350")),
     Live.mkSite [holder 10000] (Live.mkSession loggedIn JsUndefined JsUndefined)
       (fun _ => 0.47%float) 1) /\
  Pg.numericIn "100.00350" = Pg.Stored (Pg.Fixed 10000) /\
  Js.numberToString (100 - 10 + 350) = "440" /\
  Pg.numericIn "440" = Pg.Stored (Pg.Fixed 44000).
Proof. vm_compute. repeat split; reflexivity. Qed.

(** The other paths subtract numbers: a losing spin of 10 leaves 90.00,
    and a winning coin flip of 10 leaves 100 - 10 + 19.5. *)
Example settlement_by_subtraction :
  Live.GameService.playRoulette 1 (JsString "17") (JsNumber 10)
    (house loggedIn 10000 0.3)
  = (Returned (Live.GameService.mkRouletteResult 11 "black" false 0 (Live.Num 90)),
     Live.mkSite [holder 9000] (Live.mkSession loggedIn JsUndefined JsUndefined)
       (fun _ => 0.3%float) 1) /\
  Live.GameService.playCoinFlip 1 "heads" (JsNumber 10) (house loggedIn 10000 0.3)
  = (Returned (Live.GameService.mkCoinFlipResult "heads" true 19.5 109.5),
     Live.mkSite [holder 10950] (Live.mkSession loggedIn JsUndefined JsUndefined)
       (fun _ => 0.3%float) 1).
Proof. vm_compute. split; reflexivity. Qed.

(** A winning spin on a negative amount is not settled: the text bound
    to the [UPDATE] is no number, the statement is refused and the
    balance stays. *)
Example roulette_win_on_negative_amount :
  Live.GameService.playRoulette 1 (JsString "11") (JsNumber (-50))
    (house loggedIn 10000 0.3)
  = (Thrown (Pg.invalidSyntax "100.00-1750"),
     Live.mkSite [holder 10000] (Live.mkSession loggedIn JsUndefined JsUndefined)
       (fun _ => 0.3%float) 1).
Proof. vm_compute. reflexivity. Qed.

(** C3: user 1 holds 200.00 and posts [{ betType: "red", amount: "1000" }]
    to /play/roulette.  The test [amount > user.balance] compares the two
    strings "1000" and "200.00" by their characters and finds no excess;
    11, black, is drawn and the bet loses; the new balance is
    200 - 1000 = -800, the response is 200 and the column keeps -800.00. *)
Theorem roulette_text_amount_overdraws :
  Live.Controller.playRoulette
    (Live.mkRequest (spinBody (JsString "red") (JsString "1000")))
    (house loggedIn 20000 0.3)
  = (Returned
       (Live.mkResponse OK "Roulette result"
          (Some (Live.RoulettePayload
                   (Live.GameService.mkRouletteResult 11 "black" false 0
                      (Live.Num (-800)))))),
     Live.mkSite [holder (-80000)] (Live.mkSession loggedIn JsUndefined JsUndefined)
       (fun _ => 0.3%float) 1) /\
  Js.gtValue (JsString "1000") (JsString "200.00") = false /\
  Js.gtValue (JsNumber 1000) (JsString "200.00") = true /\
  Pg.numericOut (Pg.Fixed (-80000)) = "-800.00".
Proof. vm_compute. repeat split; reflexivity. Qed.

(** A spin without an amount, or a coin flip on NaN, is settled too, and
    the column then keeps NaN; the same amount as a number is refused. *)
Example settlement_on_no_number :
  Live.Controller.playRoulette
    (Live.mkRequest (spinBody (JsString "red") JsUndefined))
    (house loggedIn 20000 0.3)
  = (Returned
       (Live.mkResponse OK "Roulette result"
          (Some (Live.RoulettePayload
                   (Live.GameService.mkRouletteResult 11 "black" false 0
                      (Live.Num PrimFloat.nan))))),
     Live.mkSite [Live.Db.setBalance Pg.NaN (holder 20000)]
       (Live.mkSession loggedIn JsUndefined JsUndefined) (fun _ => 0.3%float) 1) /\
  snd (Live.GameService.playCoinFlip 1 "heads" (JsNumber PrimFloat.nan)
         (house loggedIn 20000 0.3))
  = Live.mkSite [Live.Db.setBalance Pg.NaN (holder 20000)]
      (Live.mkSession loggedIn JsUndefined JsUndefined) (fun _ => 0.3%float) 1 /\
  Live.Controller.playRoulette
    (Live.mkRequest (spinBody (JsString "red") (JsNumber 1000)))
    (house loggedIn 20000 0.3)
  = (Returned (Live.mkResponse BadRequest "Insufficient funds" None),
     house loggedIn 20000 0.3).
Proof. vm_compute. repeat split; reflexivity. Qed.

(** ** Requests without a session, on the schema *)

(** The routes that read the session are routes of [registerRoutes]. *)
Lemma sessionRoutes_registered (bindText : JsValue -> string + string) :
  incl (map fst (Live.Controller.sessionRoutes bindText))
    (map fst Controller.registerRoutes).
Proof.
  intros r Hr. cbn in Hr. cbn.
  repeat (destruct Hr as [<-|Hr]; [tauto|]). destruct Hr.
Qed.




(** The same request with a name and an email in its body. *)
Example profile_update_without_session :
  Live.Controller.updateProfile stringsOnly
    (Live.mkRequest
       (Live.mkBody JsUndefined JsUndefined JsUndefined JsUndefined JsUndefined
          JsUndefined JsUndefined (JsString "mallory") (JsString "m@example.com")))
    (house None 10000 0.5)
  = (Returned (Live.mkResponse Unauthorized "Not authenticated" None),
     house None 10000 0.5).
Proof. reflexivity. Qed.

(** ** The route that sets the balance, on the schema *)

(** The answer of the handler of POST /api/users/updateBalance to a
    request of a session with a user. *)
Lemma live_updateBalance_run (su : SessionUser) (v : JsValue) (w : Live.Site) :
  Live.user (Live.session w) = Some su ->
  Live.Controller.updateBalance (balancePost v) w
  = match accepted v with
    | Some c =>
        (Returned (Live.mkResponse OK "Balance updated" None),
         Live.withRows (balanceStored (sessionUserId su) c (Live.rows w)) w)
    | None =>
        (Returned
           (Live.mkResponse BadRequest
              (match v with
               | JsNumber x =>
                   if Js.isNaN x || Js.lt x 0 then "Invalid balance value"
                   else
                     match Pg.numericIn (Js.numberToString x) with
                     | Pg.Refused m => messageOr m "Balance update failed"
                     | Pg.Stored _ => ""
                     end
               | _ => "Invalid balance value"
               end) None), w)
    end.
Proof.
  intros Hsu.
  unfold Live.Controller.updateBalance, Live.AuthService.updateBalance, accepted,
    balancePost.
  live. rewrite Hsu. cbn [Live.body Live.bodyNewBalance].
  destruct v as [| |b|x|s]; try reflexivity.
  destruct (Js.isNaN x || Js.lt x 0); [reflexivity|].
  cbn [Live.textOf].
  destruct (Pg.numericIn (Js.numberToString x)); reflexivity.
Qed.




(** * Further properties on the schema *)

(** ** Settlement *)

(** On the schema a coin flip that settles returns
    [balance - amount + payout] computed on numbers, the balance being
    read from its text, and the column keeps that number rounded to two
    decimals in the row of the bettor. *)
Theorem coinflip_settlement_on_the_schema (userId : Z) (guess : string)
  (amount : JsValue) (w w' : Live.Site) (res : Live.GameService.CoinFlipResult) :
  Live.GameService.playCoinFlip userId guess amount w = (Returned res, w') ->
  exists a row stored,
    amount = JsNumber a /\
    find (fun r => Live.Db.id r =? userId) (Live.rows w) = Some row /\
    Live.GameService.cfNewBalance res
    = (Js.stringToNumber (Pg.numericOut (Live.Db.balance row)) - a
       + Live.GameService.cfPayout res)%float /\
    Pg.numericIn (Js.numberToString (Live.GameService.cfNewBalance res))
    = Pg.Stored stored /\
    Live.rows w' = balanceStored userId stored (Live.rows w).
Proof.
  unfold Live.GameService.playCoinFlip.
  destruct amount as [| |b|a|s]; try (live; discriminate).
  destruct (negb (Js.truthy (JsString guess)) || Js.le a 0); [live; discriminate|].
  live.
  destruct (find (fun r => Live.Db.id r =? userId) (Live.rows w)) as [row|] eqn:Hf;
    cbn [option_map]; [|discriminate].
  cbn [Live.present Live.balance].
  destruct (Js.gtValue (JsNumber a) (JsString (Pg.numericOut (Live.Db.balance row))));
    [discriminate|].
  cbn [Live.textOf].
  match goal with
  | |- context [Pg.numericIn ?t] => destruct (Pg.numericIn t) as [stored|m] eqn:Hs
  end; [|discriminate].
  intros H. inversion H; subst; clear H.
  exists a, row, stored. cbn [Live.GameService.cfNewBalance Live.GameService.cfPayout].
  repeat split; auto.
Qed.

(** A winning flip of 0.10 from 100.00: 100.095 is returned and 100.10 is
    kept. *)
Lemma coinflip_settlement_on_the_schema_witness :
  exists a row stored,
    JsNumber 0.1 = JsNumber a /\
    find (fun r => Live.Db.id r =? 1) [holder 10000] = Some row /\
    100.095%float
    = (Js.stringToNumber (Pg.numericOut (Live.Db.balance row)) - a
       + 0.19500000000000001)%float /\
    Pg.numericIn (Js.numberToString 100.095) = Pg.Stored stored /\
    [holder 10010] = balanceStored 1 stored [holder 10000].
Proof.
  apply (coinflip_settlement_on_the_schema 1 "heads" (JsNumber 0.1)
           (house loggedIn 10000 0.3)
           (Live.mkSite [holder 10010] (Live.mkSession loggedIn JsUndefined JsUndefined)
              (fun _ => 0.3%float) 1)
           (Live.GameService.mkCoinFlipResult "heads" true 0.19500000000000001 100.095)).
  vm_compute. reflexivity.
Defined.

(** On the schema a spin that settles returns, on a win, the text of the
    balance followed by the text of the payout, and on a loss the number
    [balance - amount]; the column keeps what it reads of it. *)
Theorem roulette_settlement_on_the_schema (userId : Z) (betType amount : JsValue)
  (w w' : Live.Site) (res : Live.GameService.RouletteResult) :
  Live.GameService.playRoulette userId betType amount w = (Returned res, w') ->
  exists row stored,
    find (fun r => Live.Db.id r =? userId) (Live.rows w) = Some row /\
    let text := Pg.numericOut (Live.Db.balance row) in
    Live.GameService.newBalance res
    = (if Live.GameService.win res
       then Live.Str (text ++ Js.numberToString (Live.GameService.payout res))
       else Live.Num (Js.stringToNumber text - Js.toNumber amount)%float) /\
    Pg.numericIn (Live.textOf (Live.GameService.newBalance res)) = Pg.Stored stored /\
    Live.rows w' = balanceStored userId stored (Live.rows w).
Proof.
  intros H.
  destruct (live_playRoulette_returned _ _ _ _ _ _ H)
    as (row & n & pocket & stored & Hf & _ & _ & _ & -> & Hs & Hrows & _).
  exists row, stored. cbv zeta.
  cbn [Live.GameService.newBalance Live.GameService.win Live.GameService.payout].
  repeat split; auto.
Qed.

(** A winning bet of 10 on "black" from 100.00: "100.0010" is returned
    and 100.00 is kept. *)
Lemma roulette_settlement_on_the_schema_witness :
  exists row stored,
    find (fun r => Live.Db.id r =? 1) [holder 10000] = Some row /\
    let text := Pg.numericOut (Live.Db.balance row) in
    Live.Str "100.0010" = Live.Str (text ++ Js.numberToString 10) /\
    Pg.numericIn "100.0010" = Pg.Stored stored /\
    [holder 10000] = balanceStored 1 stored [holder 10000].
Proof.
  apply (roulette_settlement_on_the_schema 1 (JsString "black") (JsNumber 10)
           (house loggedIn 10000 0.47)
           (Live.mkSite [holder 10000] (Live.mkSession loggedIn JsUndefined JsUndefined)
              (fun _ => 0.47%float) 1)
           (Live.GameService.mkRouletteResult 17 "black" true 10 (Live.Str "100.0010"))).
  vm_compute. reflexivity.
Defined.

(** ** The routes *)

(** The funds test of the two game routes for a logged-in user with a row:
    a spin whose amount is a number above the balance is answered 400
    "Insufficient funds" whatever the selector, and the site is left as it
    was; so is a coin flip whose guess is a non-empty string and whose
    amount is a positive number above the balance.  A coin flip with no
    guess is answered 400 with the message of the [TypeError] instead,
    whatever the amount. *)
Theorem overbet_on_the_schema (userId : Z) (a : float) (row : Live.Db.Row)
  (w : Live.Site) :
  authenticatedId (Live.user (Live.session w)) = Some userId ->
  find (fun r => Live.Db.id r =? userId) (Live.rows w) = Some row ->
  Js.lt (Js.stringToNumber (Pg.numericOut (Live.Db.balance row))) a = true ->
  (forall betType,
     Live.Controller.playRoulette (Live.mkRequest (spinBody betType (JsNumber a))) w
     = (Returned (Live.mkResponse BadRequest "Insufficient funds" None), w)) /\
  (forall g,
     g <> "" -> Js.le a 0 = false ->
     Live.Controller.playCoinFlip
       (Live.mkRequest (flipBody (JsString g) (JsNumber a))) w
     = (Returned (Live.mkResponse BadRequest "Insufficient funds" None), w)) /\
  (forall amount,
     Live.Controller.playCoinFlip (Live.mkRequest (flipBody JsUndefined amount)) w
     = (Returned
          (Live.mkResponse BadRequest
             (Live.cannotRead JsUndefined "toLowerCase") None), w)).
Proof.
  intros Hid Hf Hgt.
  assert (Hover : Js.gtValue (JsNumber a)
                    (JsString (Pg.numericOut (Live.Db.balance row))) = true)
    by exact Hgt.
  split; [|split].
  - intros betType.
    unfold Live.Controller.playRoulette, Live.GameService.playRoulette. live.
    rewrite Hid. cbn [Live.body Live.betType Live.amount spinBody].
    rewrite Hf. cbn [option_map Live.present Live.balance]. rewrite Hover.
    reflexivity.
  - intros g Hg Ha.
    assert (Ht : Js.truthy (JsString (Js.toLowerCase g)) = true).
    { destruct g as [|c g]; [contradiction|reflexivity]. }
    unfold Live.Controller.playCoinFlip, Live.GameService.playCoinFlip. live.
    rewrite Hid. cbn [Live.body Live.guess Live.amount flipBody].
    rewrite Ht, Ha. cbn [negb orb]. live.
    rewrite Hf. cbn [option_map Live.present Live.balance]. rewrite Hover.
    reflexivity.
  - intros amount.
    unfold Live.Controller.playCoinFlip. live. rewrite Hid. reflexivity.
Qed.

(** User 1 holds 100.00 and stakes 500. *)
Lemma overbet_on_the_schema_witness :
  (forall betType,
     Live.Controller.playRoulette (Live.mkRequest (spinBody betType (JsNumber 500)))
       (house loggedIn 10000 0.3)
     = (Returned (Live.mkResponse BadRequest "Insufficient funds" None),
        house loggedIn 10000 0.3)) /\
  (forall g,
     g <> "" -> Js.le 500 0 = false ->
     Live.Controller.playCoinFlip
       (Live.mkRequest (flipBody (JsString g) (JsNumber 500))) (house loggedIn 10000 0.3)
     = (Returned (Live.mkResponse BadRequest "Insufficient funds" None),
        house loggedIn 10000 0.3)) /\
  (forall amount,
     Live.Controller.playCoinFlip (Live.mkRequest (flipBody JsUndefined amount))
       (house loggedIn 10000 0.3)
     = (Returned
          (Live.mkResponse BadRequest
             (Live.cannotRead JsUndefined "toLowerCase") None),
        house loggedIn 10000 0.3)).
Proof.
  apply (overbet_on_the_schema 1 500 (holder 10000) (house loggedIn 10000 0.3));
    vm_compute; reflexivity.
Defined.

(** The two routes that set the balance differ when the column refuses
    the value, a number that is not NaN and not below 0: the [UPDATE] of
    POST /user/balance is outside any [try], and the refusal leaves the
    handler as an exception with no response sent; POST
    /api/users/updateBalance answers 400 with the message of the
    refusal.  Neither writes. *)
Theorem refused_balance_on_the_two_routes (su : SessionUser) (x : float)
  (m : string) (w : Live.Site) :
  Live.user (Live.session w) = Some su ->
  sessionUserId su <> 0 ->
  Js.isNaN x = false -> Js.lt x 0 = false ->
  Pg.numericIn (Js.numberToString x) = Pg.Refused m ->
  Live.Controller.setBalance (Live.mkRequest (balanceBody (JsNumber x))) w
  = (Thrown m, w) /\
  Live.Controller.updateBalance (balancePost (JsNumber x)) w
  = (Returned (Live.mkResponse BadRequest (messageOr m "Balance update failed") None),
     w).
Proof.
  intros Hsu Hid Hnan Hneg Href.
  assert (Ha : authenticatedId (Live.user (Live.session w)) = Some (sessionUserId su)).
  { rewrite Hsu. unfold authenticatedId.
    destruct (Z.eqb_spec (sessionUserId su) 0); [contradiction|reflexivity]. }
  split.
  - unfold Live.Controller.setBalance. live. rewrite Ha.
    cbn [Live.body Live.bodyBalance balanceBody]. rewrite Hneg.
    cbn [Live.textOf]. rewrite Href. reflexivity.
  - rewrite (live_updateBalance_run su (JsNumber x) w Hsu).
    unfold accepted. rewrite Hnan, Hneg, Href. reflexivity.
Qed.

(** A balance of 100000000 posted by user 1. *)
Lemma refused_balance_on_the_two_routes_witness :
  Live.Controller.setBalance (Live.mkRequest (balanceBody (JsNumber 100000000)))
    (house loggedIn 10000 0.5)
  = (Thrown "numeric field overflow", house loggedIn 10000 0.5) /\
  Live.Controller.updateBalance (balancePost (JsNumber 100000000))
    (house loggedIn 10000 0.5)
  = (Returned
       (Live.mkResponse BadRequest
          (messageOr "numeric field overflow" "Balance update failed") None),
     house loggedIn 10000 0.5).
Proof.
  apply (refused_balance_on_the_two_routes (mkSessionUser 1) 100000000
           "numeric field overflow" (house loggedIn 10000 0.5));
    solve [reflexivity | discriminate | vm_compute; reflexivity].
Defined.

(** [toLowerCase] does not tell the capital from the small form of a
    letter. *)
Lemma sameLetter_lowerChar (c d : ascii) :
  sameLetter c d = true -> Js.lowerChar c = Js.lowerChar d.
Proof.
  unfold sameLetter. intros H. apply orb_true_iff in H. destruct H as [H|H].
  - apply Ascii.eqb_eq in H. subst. reflexivity.
  - apply existsb_exists in H. destruct H as ([u l] & Hin & H).
    cbn [fst snd] in H. cbn in Hin.
    repeat (destruct Hin as [Hin|Hin];
            [inversion Hin; subst; clear Hin;
             apply orb_true_iff in H; destruct H as [H|H];
             apply andb_true_iff in H; destruct H as [H1 H2];
             apply Ascii.eqb_eq in H1; apply Ascii.eqb_eq in H2; subst;
             reflexivity|]).
    destruct Hin.
Qed.

Lemma sameLetters_toLowerCase (g : string) :
  forall h, sameLetters g h = true -> Js.toLowerCase g = Js.toLowerCase h.
Proof.
  induction g as [|c g IH]; intros [|d h] H; try discriminate; [reflexivity|].
  cbn [sameLetters] in H. apply andb_true_iff in H. destruct H as [Hc Hg].
  cbn [Js.toLowerCase]. rewrite (sameLetter_lowerChar c d Hc), (IH h Hg). reflexivity.
Qed.

(** The coin-flip route does not tell capitals from small letters in the
    guess: two guesses that differ only in the case of their letters are
    answered alike, with the same effect on the site. *)
Theorem coinflip_route_ignores_case (g h : string) (amount : JsValue)
  (w : Live.Site) :
  sameLetters g h = true ->
  Live.Controller.playCoinFlip (Live.mkRequest (flipBody (JsString g) amount)) w
  = Live.Controller.playCoinFlip (Live.mkRequest (flipBody (JsString h) amount)) w.
Proof.
  intros H. unfold Live.Controller.playCoinFlip.
  cbn [Live.body Live.guess Live.amount flipBody].
  rewrite (sameLetters_toLowerCase g h H). reflexivity.
Qed.

(** "HEADS" and "heads" by user 1 on a draw of heads: both win. *)
Lemma coinflip_route_ignores_case_witness :
  Live.Controller.playCoinFlip
    (Live.mkRequest (flipBody (JsString "HEADS") (JsNumber 10))) (house loggedIn 10000 0.3)
  = Live.Controller.playCoinFlip
      (Live.mkRequest (flipBody (JsString "heads") (JsNumber 10)))
      (house loggedIn 10000 0.3).
Proof.
  apply (coinflip_route_ignores_case "HEADS" "heads" (JsNumber 10)
           (house loggedIn 10000 0.3)).
  reflexivity.
Defined.

Example coinflip_route_capitals :
  Live.Controller.playCoinFlip
    (Live.mkRequest (flipBody (JsString "HEADS") (JsNumber 10))) (house loggedIn 10000 0.3)
  = (Returned
       (Live.mkResponse OK "Coin flip result"
          (Some (Live.CoinFlipPayload
                   (Live.GameService.mkCoinFlipResult "heads" true 19.5 109.5)))),
     Live.mkSite [holder 10950] (Live.mkSession loggedIn JsUndefined JsUndefined)
       (fun _ => 0.3%float) 1).
Proof. vm_compute. reflexivity. Qed.

(** PUT /user/password by a logged-in user with a row, both fields being
    strings: the answer is 200 and the password of that user is replaced
    exactly when [currentPassword] is the stored password and
    [newPassword] has at least 6 characters; otherwise the answer is 400
    and nothing is written, a wrong current password being reported before
    a short new one.  A [newPassword] that is a number has no length: the
    test is skipped and the value goes to the driver as it is. *)
Theorem password_route_on_the_schema (bindText : JsValue -> string + string)
  (userId : Z) (row : Live.Db.Row) (w : Live.Site) :
  authenticatedId (Live.user (Live.session w)) = Some userId ->
  find (fun r => Live.Db.id r =? userId) (Live.rows w) = Some row ->
  (forall current new,
     Live.Controller.updatePassword bindText
       (Live.mkRequest (passwordBody (JsString current) (JsString new))) w
     = if negb (Live.Db.password row =? current)%string
       then (Returned (Live.mkResponse BadRequest "Current password is incorrect" None), w)
       else if Z.of_nat (String.length new) <? 6
       then (Returned
               (Live.mkResponse BadRequest
                  "New password must be at least 6 characters" None), w)
       else (Returned (Live.mkResponse OK "Password updated successfully" None),
             Live.withRows (passwordStored userId new (Live.rows w)) w)) /\
  (forall x,
     Live.Controller.updatePassword bindText
       (Live.mkRequest (passwordBody (JsString (Live.Db.password row)) (JsNumber x))) w
     = match bindText (JsNumber x) with
       | inl p =>
           (Returned (Live.mkResponse OK "Password updated successfully" None),
            Live.withRows (passwordStored userId p (Live.rows w)) w)
       | inr m =>
           (Returned
              (Live.mkResponse BadRequest (messageOr m "Password update failed") None),
            w)
       end).
Proof.
  intros Hid Hf. split.
  - intros current new.
    unfold Live.Controller.updatePassword, Live.AuthService.updatePassword,
      Live.UserModel.updatePassword.
    live. rewrite Hid. cbn [Live.body Live.currentPassword Live.newPassword passwordBody].
    rewrite Hf. cbn [option_map Live.present Live.password Js.strictEqString].
    rewrite String.eqb_sym.
    destruct (Live.Db.password row =? current)%string; cbn [negb]; [|reflexivity].
    destruct (Z.of_nat (String.length new) <? 6); reflexivity.
  - intros x.
    unfold Live.Controller.updatePassword, Live.AuthService.updatePassword,
      Live.UserModel.updatePassword.
    live. rewrite Hid. cbn [Live.body Live.currentPassword Live.newPassword passwordBody].
    rewrite Hf. cbn [option_map Live.present Live.password Js.strictEqString].
    rewrite String.eqb_refl. cbn [negb Live.textParameter].
    destruct (bindText (JsNumber x)); reflexivity.
Qed.

(** User 1, whose password is "secret1". *)
Lemma password_route_on_the_schema_witness :
  (forall current new,
     Live.Controller.updatePassword stringsOnly
       (Live.mkRequest (passwordBody (JsString current) (JsString new)))
       (house loggedIn 10000 0.5)
     = if negb ("secret1" =? current)%string
       then (Returned (Live.mkResponse BadRequest "Current password is incorrect" None),
             house loggedIn 10000 0.5)
       else if Z.of_nat (String.length new) <? 6
       then (Returned
               (Live.mkResponse BadRequest
                  "New password must be at least 6 characters" None),
             house loggedIn 10000 0.5)
       else (Returned (Live.mkResponse OK "Password updated successfully" None),
             Live.withRows (passwordStored 1 new [holder 10000])
               (house loggedIn 10000 0.5))) /\
  (forall x,
     Live.Controller.updatePassword stringsOnly
       (Live.mkRequest (passwordBody (JsString "secret1") (JsNumber x)))
       (house loggedIn 10000 0.5)
     = (Returned (Live.mkResponse BadRequest (messageOr "refused" "Password update failed") None),
        house loggedIn 10000 0.5)).
Proof.
  apply (password_route_on_the_schema stringsOnly 1 (holder 10000)
           (house loggedIn 10000 0.5)); reflexivity.
Defined.

Example password_route_cases :
  fst (Live.Controller.updatePassword stringsOnly
         (Live.mkRequest (passwordBody (JsString "secret1") (JsString "longer-secret")))
         (house loggedIn 10000 0.5))
  = Returned (Live.mkResponse OK "Password updated successfully" None) /\
  fst (Live.Controller.updatePassword stringsOnly
         (Live.mkRequest (passwordBody (JsString "secret1") (JsString "short")))
         (house loggedIn 10000 0.5))
  = Returned (Live.mkResponse BadRequest
                "New password must be at least 6 characters" None) /\
  fst (Live.Controller.updatePassword stringsOnly
         (Live.mkRequest (passwordBody (JsString "wrong") (JsString "short")))
         (house loggedIn 10000 0.5))
  = Returned (Live.mkResponse BadRequest "Current password is incorrect" None) /\
  fst (Live.Controller.updatePassword stringsOnly
         (Live.mkRequest (passwordBody (JsString "secret1") JsUndefined))
         (house loggedIn 10000 0.5))
  = Returned (Live.mkResponse BadRequest
                (Live.cannotRead JsUndefined "length") None).
Proof. vm_compute. repeat split; reflexivity. Qed.

(** ** The blackjack page *)

(** [updateUserBalance] against the server, for a session with a user:
    the page goes on showing the new balance exactly when the route takes
    it, and the table then keeps what the column reads of it, which is the
    new balance rounded to two decimals; otherwise the page shows the old
    balance again and nothing is written. *)
Theorem updateUserBalance_on_the_schema (su : SessionUser) (newBalance : float)
  (p : Live.Blackjack.Page) (w : Live.Site) :
  Live.user (Live.session w) = Some su ->
  Live.Blackjack.updateUserBalance newBalance p w
  = match accepted (Js.jsonNumber newBalance) with
    | Some c =>
        (newBalance,
         Live.withRows (balanceStored (sessionUserId su) c (Live.rows w)) w)
    | None => (Live.Blackjack.userBalance p, w)
    end.
Proof.
  intros Hsu. unfold Live.Blackjack.updateUserBalance.
  change (Live.mkRequest (Live.Blackjack.newBalanceBody newBalance))
    with (balancePost (Js.jsonNumber newBalance)).
  rewrite (live_updateBalance_run su (Js.jsonNumber newBalance) w Hsu).
  destruct (accepted (Js.jsonNumber newBalance)); reflexivity.
Qed.

(** The page of user 1 shows 100 and posts 100.095: it shows 100.095 and
    the table keeps 100.10. *)
Lemma updateUserBalance_on_the_schema_witness :
  Live.Blackjack.updateUserBalance 100.095
    (Live.Blackjack.mkPage 100 true 0 false [] [] [] false false false)
    (house loggedIn 10000 0.5)
  = (100.095%float,
     Live.withRows (balanceStored 1 (Pg.Fixed 10010) [holder 10000])
       (house loggedIn 10000 0.5)).
Proof.
  apply (updateUserBalance_on_the_schema (mkSessionUser 1) 100.095
           (Live.Blackjack.mkPage 100 true 0 false [] [] [] false false false)
           (house loggedIn 10000 0.5)).
  reflexivity.
Defined.

(** ** The profile *)

Lemma filter_existsb {A} (f : A -> bool) (l : list A) :
  existsb f l = match filter f l with [] => false | _ :: _ => true end.
Proof.
  induction l as [|a l IH]; [reflexivity|].
  cbn [existsb filter]. destruct (f a); [reflexivity|exact IH].
Qed.

(** PUT /user/profile by a logged-in user: a request whose email is
    missing or empty is answered 400 "Email is required", and a request
    whose email is the email of another user is answered 400 "Email is
    already taken"; in both cases the site is left as it was. *)
Theorem profile_update_checks (bindText : JsValue -> string + string)
  (userId : Z) (w : Live.Site) :
  authenticatedId (Live.user (Live.session w)) = Some userId ->
  (forall name email,
     Js.truthy email = false ->
     Live.Controller.updateProfile bindText
       (Live.mkRequest (profileBody name email)) w
     = (Returned (Live.mkResponse BadRequest "Email is required" None), w)) /\
  (forall name e,
     e <> "" -> emailTaken e userId (Live.rows w) = true ->
     Live.Controller.updateProfile bindText
       (Live.mkRequest (profileBody name (JsString e))) w
     = (Returned (Live.mkResponse BadRequest "Email is already taken" None), w)).
Proof.
  intros Hid. split.
  - intros name email He.
    unfold Live.Controller.updateProfile. live. rewrite Hid.
    cbn [Live.body Live.bodyEmail Live.name profileBody]. rewrite He. reflexivity.
  - intros name e He Ht.
    assert (Htr : Js.truthy (JsString e) = true)
      by (destruct e; [contradiction|reflexivity]).
    unfold Live.Controller.updateProfile, Live.Controller.selectOtherByEmail. live.
    rewrite Hid. cbn [Live.body Live.bodyEmail Live.name profileBody].
    rewrite Htr. cbn [negb Live.textParameter].
    unfold emailTaken in Ht. rewrite filter_existsb in Ht.
    destruct (filter (fun r => (Live.Db.email r =? e)%string
                               && negb (Live.Db.id r =? userId)) (Live.rows w));
      [discriminate|reflexivity].
Qed.

(** User 2 asks for the email of user 1. *)
Lemma profile_update_checks_witness :
  (forall name email,
     Js.truthy email = false ->
     Live.Controller.updateProfile stringsOnly
       (Live.mkRequest (profileBody name email)) (house (Some (mkSessionUser 2)) 10000 0.5)
     = (Returned (Live.mkResponse BadRequest "Email is required" None),
        house (Some (mkSessionUser 2)) 10000 0.5)) /\
  (forall name e,
     e <> "" ->
     emailTaken e 2 [holder 10000] = true ->
     Live.Controller.updateProfile stringsOnly
       (Live.mkRequest (profileBody name (JsString e)))
       (house (Some (mkSessionUser 2)) 10000 0.5)
     = (Returned (Live.mkResponse BadRequest "Email is already taken" None),
        house (Some (mkSessionUser 2)) 10000 0.5)).
Proof.
  apply (profile_update_checks stringsOnly 2 (house (Some (mkSessionUser 2)) 10000 0.5)).
  reflexivity.
Defined.

(** User 1 renames the account and changes its email: the row is updated,
    the session notes the email, and the balance comes back as its text. *)
Example profile_update_of_the_holder :
  Live.Controller.updateProfile stringsOnly
    (Live.mkRequest (profileBody (JsString "ace") (JsString "ace@example.com")))
    (house loggedIn 10000 0.5)
  = (Returned
       (Live.mkResponse OK "Profile updated successfully"
          (Some (Live.UpdatedProfilePayload 1 "ace" "ace@example.com" "100.00"))),
     Live.mkSite [Live.Db.mkRow 1 "ace" "ace@example.com" "secret1" (Pg.Fixed 10000)]
       (Live.mkSession loggedIn JsUndefined (JsString "ace@example.com"))
       (fun _ => 0.5%float) 0) /\
  Live.Controller.updateProfile stringsOnly
    (Live.mkRequest (profileBody JsUndefined (JsString "ace@example.com")))
    (house loggedIn 10000 0.5)
  = (Returned (Live.mkResponse InternalServerError "Failed to update profile" None),
     house loggedIn 10000 0.5).
Proof. vm_compute. split; reflexivity. Qed.
